(** * Request lifecycle and inventory reconciliation of [server.js]

    A shallow embedding of the resource-request routes of the hospital
    communication server ([POST /api/requests], [/accept], [/reject],
    [/cancel], [/finalize]), of the hospital search, of the hospital
    details and of the administrator's delete, over the two MongoDB
    collections they touch, followed by the properties of the request
    state machine, of the search and of the cascade. *)

From stdpp Require Import gmap strings list fin_maps.
From Stdlib Require Import ZArith Ascii.

Open Scope Z_scope.

(** ** Data model (section 6 of [server.js]: Mongoose schemas) *)

(** An [ObjectId] in the form the session store and [toString()] give it. *)
Abbreviation ObjectId := string.

Inductive BloodGroup :=
  A_pos | A_neg | B_pos | B_neg | AB_pos | AB_neg | O_pos | O_neg.

Inductive OrganName := Kidney | Liver | Heart | Lung | Pancreas | Cornea.

Inductive RequestType := Oxygen | Blood | Organ.

Inductive Status := Open | Accepted | Closed | Rejected.

Inductive UserType := hospital | admin.

#[global] Instance BloodGroup_eq_dec : EqDecision BloodGroup.
Proof. solve_decision. Defined.
#[global] Instance OrganName_eq_dec : EqDecision OrganName.
Proof. solve_decision. Defined.
#[global] Instance RequestType_eq_dec : EqDecision RequestType.
Proof. solve_decision. Defined.
#[global] Instance Status_eq_dec : EqDecision Status.
Proof. solve_decision. Defined.
#[global] Instance UserType_eq_dec : EqDecision UserType.
Proof. solve_decision. Defined.

(** [HospitalSchema.details.bloodAvailability]: one counter per blood group. *)
Record BloodAvailability := mkBlood {
  cntA_pos : Z; cntA_neg : Z; cntB_pos : Z; cntB_neg : Z;
  cntAB_pos : Z; cntAB_neg : Z; cntO_pos : Z; cntO_neg : Z
}.

Definition blood_get (g : BloodGroup) (b : BloodAvailability) : Z :=
  match g with
  | A_pos => cntA_pos b | A_neg => cntA_neg b
  | B_pos => cntB_pos b | B_neg => cntB_neg b
  | AB_pos => cntAB_pos b | AB_neg => cntAB_neg b
  | O_pos => cntO_pos b | O_neg => cntO_neg b
  end.

Definition blood_set (g : BloodGroup) (v : Z) (b : BloodAvailability)
  : BloodAvailability :=
  match g with
  | A_pos => mkBlood v (cntA_neg b) (cntB_pos b) (cntB_neg b)
                     (cntAB_pos b) (cntAB_neg b) (cntO_pos b) (cntO_neg b)
  | A_neg => mkBlood (cntA_pos b) v (cntB_pos b) (cntB_neg b)
                     (cntAB_pos b) (cntAB_neg b) (cntO_pos b) (cntO_neg b)
  | B_pos => mkBlood (cntA_pos b) (cntA_neg b) v (cntB_neg b)
                     (cntAB_pos b) (cntAB_neg b) (cntO_pos b) (cntO_neg b)
  | B_neg => mkBlood (cntA_pos b) (cntA_neg b) (cntB_pos b) v
                     (cntAB_pos b) (cntAB_neg b) (cntO_pos b) (cntO_neg b)
  | AB_pos => mkBlood (cntA_pos b) (cntA_neg b) (cntB_pos b) (cntB_neg b)
                      v (cntAB_neg b) (cntO_pos b) (cntO_neg b)
  | AB_neg => mkBlood (cntA_pos b) (cntA_neg b) (cntB_pos b) (cntB_neg b)
                      (cntAB_pos b) v (cntO_pos b) (cntO_neg b)
  | O_pos => mkBlood (cntA_pos b) (cntA_neg b) (cntB_pos b) (cntB_neg b)
                     (cntAB_pos b) (cntAB_neg b) v (cntO_neg b)
  | O_neg => mkBlood (cntA_pos b) (cntA_neg b) (cntB_pos b) (cntB_neg b)
                     (cntAB_pos b) (cntAB_neg b) (cntO_pos b) v
  end.

(** One element of [details.organAvailability]. *)
Record OrganOffer := mkOffer {
  organName : OrganName;
  bloodGroup : BloodGroup;
  age : Z;
  notes : option string
}.

(** [HospitalSchema.details]: the inventory of a hospital. *)
Record HospitalDetails := mkDetails {
  oxygenCylinders_total : Z;
  bloodAvailability : BloodAvailability;
  organAvailability : list OrganOffer
}.

(** A document of the [hospitals] collection.  The contact fields and the
    password hash are never read by the request routes and are left out. *)
Record Hospital := mkHospital {
  hospitalName : string;
  details : HospitalDetails
}.

(** [RequestSchema.details]: every field is optional in the schema. *)
Record RequestDetails := mkReqDetails {
  rd_bloodGroup : option BloodGroup;
  rd_quantity : option Z;
  rd_organName : option OrganName
}.

(** A document of the [requests] collection (timestamps left out). *)
Record Request := mkRequest {
  requestingHospital : ObjectId;
  providingHospital : option ObjectId;
  requestType : RequestType;
  status : Status;
  req_details : RequestDetails;
  description : string
}.

(** The two collections the request routes read and write. *)
Record State := mkState {
  hospitals : gmap string Hospital;
  requests : gmap string Request
}.

(** [req.session] as [POST /api/login] fills it. *)
Record Session := mkSession {
  userId : option ObjectId;
  userType : UserType
}.

(** ** Responses *)

(** The responses of the request routes, named after the error taxonomy;
    [http_code] is the status the route sends. *)
Inductive Response :=
| Unauthenticated                 (* 401, isAuthenticated *)
| NotFound                        (* 404 *)
| InvalidState                    (* 400, 'This request is no longer open.' *)
| SelfAction                      (* 400, 'You cannot ... your own request.' *)
| Forbidden                       (* 403 *)
| InvalidArgument                 (* 400, 'Invalid status. ...' *)
| ServerError                     (* 500, the catch block *)
| Success                         (* 200 *)
| Created (r : Request).          (* 201 *)

Definition http_code (r : Response) : Z :=
  match r with
  | Unauthenticated => 401
  | NotFound => 404
  | InvalidState | SelfAction | InvalidArgument => 400
  | Forbidden => 403
  | ServerError => 500
  | Success => 200
  | Created _ => 201
  end.

Definition succeeded (r : Response) : bool :=
  match r with
  | Success | Created _ => true
  | _ => false
  end.

(** ** The inventory update issued by [accept] *)

(** The field a [$inc] addresses.  The blood path is built by string
    interpolation from [request.details.bloodGroup], which may be absent. *)
Inductive IncPath :=
| PathBlood (g : option BloodGroup)   (* `details.bloodAvailability.${g}` *)
| PathOxygen.                         (* 'details.oxygenCylinders.total' *)

(** The [update] object of the accept route.  An amount of [None] stands
    for [NaN], the value of [-undefined]. *)
Inductive Update :=
| UpdEmpty                                           (* {} *)
| UpdInc (path : IncPath) (amount : option Z)        (* { $inc: ... } *)
| UpdPull (o : option OrganName) (g : option BloodGroup). (* { $pull: ... } *)

(** Unary minus on a possibly absent number. *)
Definition js_neg (q : option Z) : option Z := Z.opp <$> q.

(** Lines 251-258: the update is chosen by [request.requestType]. *)
Definition build_update (request : Request) : Update :=
  match requestType request with
  | Blood => UpdInc (PathBlood (rd_bloodGroup (req_details request)))
                    (js_neg (rd_quantity (req_details request)))
  | Oxygen => UpdInc PathOxygen (js_neg (rd_quantity (req_details request)))
  | Organ => UpdPull (rd_organName (req_details request))
                     (rd_bloodGroup (req_details request))
  end.

(** The [$pull] condition [{ organName, bloodGroup }] on one array element. *)
Definition offer_matches (o : option OrganName) (g : option BloodGroup)
    (f : OrganOffer) : bool :=
  bool_decide (o = Some (organName f)) && bool_decide (g = Some (bloodGroup f)).

(** [$pull] removes every element of the array that meets the condition. *)
Definition pull_offers (o : option OrganName) (g : option BloodGroup)
    (l : list OrganOffer) : list OrganOffer :=
  List.filter (fun f => negb (offer_matches o g f)) l.

(** Mongoose casts an update against the schema before it is sent: a
    path outside the schema is stripped (strict mode), [NaN] for a [Number]
    path raises a [CastError]. *)
Definition cast_update (u : Update) : option Update :=
  match u with
  | UpdInc (PathBlood None) _ => Some UpdEmpty
  | UpdInc _ None => None
  | _ => Some u
  end.

(** The effect of a cast update on the inventory of the matched document. *)
Definition apply_update (u : Update) (d : HospitalDetails) : HospitalDetails :=
  match u with
  | UpdInc (PathBlood (Some g)) (Some n) =>
      mkDetails (oxygenCylinders_total d)
                (blood_set g (blood_get g (bloodAvailability d) + n)
                           (bloodAvailability d))
                (organAvailability d)
  | UpdInc PathOxygen (Some n) =>
      mkDetails (oxygenCylinders_total d + n)
                (bloodAvailability d) (organAvailability d)
  | UpdPull o g =>
      mkDetails (oxygenCylinders_total d) (bloodAvailability d)
                (pull_offers o g (organAvailability d))
  | _ => d
  end.

Definition update_hospital (u : Update) (h : Hospital) : Hospital :=
  mkHospital (hospitalName h) (apply_update u (details h)).

(** [Hospital.findByIdAndUpdate(id, update)]: [None] when the cast throws;
    a missing document is not an error and nothing is written. *)
Definition Hospital_findByIdAndUpdate (id : ObjectId) (u : Update)
    (st : State) : option State :=
  match cast_update u with
  | None => None
  | Some u' =>
      Some (mkState (alter (update_hospital u') id (hospitals st)) (requests st))
  end.

(** [Request.findByIdAndUpdate(id, { status, providingHospital })]. *)
Definition set_status_provider (s : Status) (p : ObjectId) (r : Request)
    : Request :=
  mkRequest (requestingHospital r) (Some p) (requestType r) s
            (req_details r) (description r).

(** [Request.findByIdAndUpdate(id, { status })]. *)
Definition set_status (s : Status) (r : Request) : Request :=
  mkRequest (requestingHospital r) (providingHospital r) (requestType r) s
            (req_details r) (description r).

Definition Request_findByIdAndUpdate (id : ObjectId) (f : Request -> Request)
    (st : State) : State :=
  mkState (hospitals st) (alter f id (requests st)).

Definition Request_findByIdAndDelete (id : ObjectId) (st : State) : State :=
  mkState (hospitals st) (delete id (requests st)).

(** ** The request routes *)

(** [POST /api/requests/accept] (lines 240-271). *)
Definition accept (s : Session) (requestId : ObjectId) (st : State)
    : State * Response :=
  match userId s with
  | None => (st, Unauthenticated)
  | Some providerHospitalId =>
      match requests st !! requestId with
      | None => (st, NotFound)
      | Some request =>
          if negb (bool_decide (status request = Open)) then (st, InvalidState)
          else if String.eqb (requestingHospital request) providerHospitalId
          then (st, SelfAction)
          else
            match Hospital_findByIdAndUpdate providerHospitalId
                    (build_update request) st with
            | None => (st, ServerError)
            | Some st1 =>
                (Request_findByIdAndUpdate requestId
                   (set_status_provider Accepted providerHospitalId) st1,
                 Success)
            end
      end
  end.

(** [POST /api/requests/reject] (lines 311-333). *)
Definition reject (s : Session) (requestId : ObjectId) (st : State)
    : State * Response :=
  match userId s with
  | None => (st, Unauthenticated)
  | Some providerHospitalId =>
      match requests st !! requestId with
      | None => (st, NotFound)
      | Some request =>
          if negb (bool_decide (status request = Open)) then (st, InvalidState)
          else if String.eqb (requestingHospital request) providerHospitalId
          then (st, SelfAction)
          else
            (Request_findByIdAndUpdate requestId
               (set_status_provider Rejected providerHospitalId) st,
             Success)
      end
  end.

(** [POST /api/requests/cancel] (lines 273-286). *)
Definition cancel (s : Session) (requestId : ObjectId) (st : State)
    : State * Response :=
  match userId s with
  | None => (st, Unauthenticated)
  | Some uid =>
      match requests st !! requestId with
      | None => (st, NotFound)
      | Some request =>
          if negb (String.eqb (requestingHospital request) uid)
          then (st, Forbidden)
          else (Request_findByIdAndDelete requestId st, Success)
      end
  end.

(** [POST /api/requests/finalize] (lines 288-308).  [finalStatus] is the
    body field: absent, or any string. *)
Definition finalize (s : Session) (requestId : ObjectId)
    (finalStatus : option string) (st : State) : State * Response :=
  match userId s with
  | None => (st, Unauthenticated)
  | Some uid =>
      match requests st !! requestId with
      | None => (st, NotFound)
      | Some request =>
          if negb (String.eqb (requestingHospital request) uid)
          then (st, Forbidden)
          else if negb (bool_decide (finalStatus = Some "Closed"%string))
          then (st, InvalidArgument)
          else (Request_findByIdAndUpdate requestId (set_status Closed) st,
                Success)
      end
  end.

(** *** Creating a request *)

(** [req.body] of [POST /api/requests].  Every field of the schema can be
    supplied by the caller; enum fields hold values of the enum (Mongoose
    refuses anything else when the document is saved). *)
Record Draft := mkDraft {
  d_id : option ObjectId;
  d_requestingHospital : option ObjectId;
  d_providingHospital : option ObjectId;
  d_requestType : option RequestType;
  d_status : option Status;
  d_details : RequestDetails;
  d_description : option string
}.

(** [{ ...req.body, requestingHospital: req.session.userId }] *)
Definition spread_with_requester (body : Draft) (uid : ObjectId) : Draft :=
  mkDraft (d_id body) (Some uid) (d_providingHospital body)
          (d_requestType body) (d_status body) (d_details body)
          (d_description body).

(** [new Request(obj)] followed by the validation of [save()]: the schema
    default fills a missing [status]; [requestingHospital], [requestType]
    and a non-empty [description] are required. *)
Definition new_Request (obj : Draft) : option Request :=
  match d_requestingHospital obj, d_requestType obj, d_description obj with
  | Some rh, Some ty, Some descr =>
      if String.eqb descr "" then None
      else Some (mkRequest rh (d_providingHospital obj) ty
                           (default Open (d_status obj))
                           (d_details obj) descr)
  | _, _, _ => None
  end.

(** [POST /api/requests] (lines 215-226).  [fresh] is the [_id] the driver
    generates when the body brings none; inserting under an [_id] already
    in the collection raises a duplicate-key error. *)
Definition create (s : Session) (fresh : ObjectId) (body : Draft) (st : State)
    : State * Response :=
  match userId s with
  | None => (st, Unauthenticated)
  | Some uid =>
      match new_Request (spread_with_requester body uid) with
      | None => (st, ServerError)
      | Some newRequest =>
          let id := default fresh (d_id body) in
          match requests st !! id with
          | Some _ => (st, ServerError)
          | None =>
              (mkState (hospitals st) (<[id := newRequest]> (requests st)),
               Created newRequest)
          end
      end
  end.

(** ** Interleaving of two accept handlers *)

(** The accept handler suspends at each [await]; the database operation it
    awaits is atomic on its document, and another handler may run between
    two of them.  [AcceptPc] is the point a handler has reached. *)
Inductive AcceptPc :=
| AtFind                       (* await Request.findById(requestId) *)
| AtDebit (update : Update)    (* await Hospital.findByIdAndUpdate(...) *)
| AtCommit                     (* await Request.findByIdAndUpdate(...) *)
| Replied (r : Response).

Definition accept_step (providerHospitalId requestId : ObjectId)
    (pc : AcceptPc) (st : State) : AcceptPc * State :=
  match pc with
  | AtFind =>
      match requests st !! requestId with
      | None => (Replied NotFound, st)
      | Some request =>
          if negb (bool_decide (status request = Open))
          then (Replied InvalidState, st)
          else if String.eqb (requestingHospital request) providerHospitalId
          then (Replied SelfAction, st)
          else (AtDebit (build_update request), st)
      end
  | AtDebit update =>
      match Hospital_findByIdAndUpdate providerHospitalId update st with
      | None => (Replied ServerError, st)
      | Some st1 => (AtCommit, st1)
      end
  | AtCommit =>
      (Replied Success,
       Request_findByIdAndUpdate requestId
         (set_status_provider Accepted providerHospitalId) st)
  | Replied r => (Replied r, st)
  end.

(** Two handlers in flight, for providers [p1] and [p2], on one request. *)
Record Race := mkRace {
  pc1 : AcceptPc;
  pc2 : AcceptPc;
  db : State
}.

Inductive Turn := First | Second.

Definition race_step (p1 p2 requestId : ObjectId) (t : Turn) (r : Race) : Race :=
  match t with
  | First =>
      let '(pc, st) := accept_step p1 requestId (pc1 r) (db r) in
      mkRace pc (pc2 r) st
  | Second =>
      let '(pc, st) := accept_step p2 requestId (pc2 r) (db r) in
      mkRace (pc1 r) pc st
  end.

Definition race_run (p1 p2 requestId : ObjectId) (sched : list Turn) (st : State)
    : Race :=
  fold_left (fun r t => race_step p1 p2 requestId t r) sched
            (mkRace AtFind AtFind st).

(** ** Notions used by the statements *)

(** Position of a status along [Open -> {Accepted, Rejected} -> Closed]. *)
Definition status_rank (s : Status) : nat :=
  match s with
  | Open => 0%nat
  | Accepted | Rejected => 1%nat
  | Closed => 2%nat
  end.

(** The statuses the lifecycle names as final. *)
Definition terminal (s : Status) : bool :=
  match s with
  | Rejected | Closed => true
  | _ => false
  end.

(** The details a request of each type carries. *)
Definition details_present (r : Request) : Prop :=
  match requestType r with
  | Blood => is_Some (rd_bloodGroup (req_details r))
             /\ is_Some (rd_quantity (req_details r))
  | Oxygen => is_Some (rd_quantity (req_details r))
  | Organ => True
  end.

(** The counter a Blood or Oxygen request is debited from. *)
Definition debited_count (r : Request) (d : HospitalDetails) : option Z :=
  match requestType r with
  | Blood => g ← rd_bloodGroup (req_details r);
             Some (blood_get g (bloodAvailability d))
  | Oxygen => Some (oxygenCylinders_total d)
  | Organ => None
  end.

(** The wording of the specification, "remove one organ offer matching
    (organName, bloodGroup)": the list after is the list before with a
    single matching offer taken out. *)
Definition spec_removes_one_offer (o : option OrganName) (g : option BloodGroup)
    (before after : list OrganOffer) : Prop :=
  exists l1 f l2,
    before = l1 ++ f :: l2 /\ after = l1 ++ l2 /\ offer_matches o g f = true.

(** All inventory counters of a hospital are non-negative. *)
Definition inventory_nonneg (d : HospitalDetails) : Prop :=
  0 <= oxygenCylinders_total d
  /\ forall g, 0 <= blood_get g (bloodAvailability d).

(** ** Sequences of lifecycle operations *)

(** The provider-side and requester-side operations on requests. *)
Inductive LifecycleOp :=
| OpAccept (s : Session) (requestId : ObjectId)
| OpReject (s : Session) (requestId : ObjectId)
| OpFinalize (s : Session) (requestId : ObjectId) (finalStatus : option string).

Definition run_op (op : LifecycleOp) (st : State) : State :=
  match op with
  | OpAccept s r => fst (accept s r st)
  | OpReject s r => fst (reject s r st)
  | OpFinalize s r f => fst (finalize s r f st)
  end.

Definition run_ops (ops : list LifecycleOp) (st : State) : State :=
  fold_left (fun st op => run_op op st) ops st.

(** A relation on statuses is kept by an operation when each request
    stays in the collection with a related status. *)
Definition keeps (rel : Status -> Status -> Prop) (st st' : State) : Prop :=
  forall j R, requests st !! j = Some R ->
    exists R', requests st' !! j = Some R' /\ rel (status R) (status R').

(** Never backward, and Closed is kept. *)
Definition forward (a b : Status) : Prop :=
  (status_rank a <= status_rank b)%nat /\ (a = Closed -> b = Closed).

(** ** [parseInt], as the search route applies it to [req.query.quantity] *)

(** White space that [parseInt] skips, among the characters below 256:
    TAB, LF, VT, FF, CR, SP and NBSP. *)
Definition js_space (a : Ascii.ascii) : bool :=
  let n := Ascii.N_of_ascii a in
  ((9 <=? n) && (n <=? 13) || (n =? 32) || (n =? 160))%N.

Fixpoint skip_space (x : string) : string :=
  match x with
  | String a r => if js_space a then skip_space r else x
  | EmptyString => x
  end.

(** The value of a character as a digit of the given radix. *)
Definition digit_val (radix : Z) (a : Ascii.ascii) : option Z :=
  let n := Z.of_N (Ascii.N_of_ascii a) in
  let v := if (48 <=? n) && (n <=? 57) then Some (n - 48)
           else if (97 <=? n) && (n <=? 122) then Some (n - 87)
           else if (65 <=? n) && (n <=? 90) then Some (n - 55)
           else None in
  match v with
  | Some d => if d <? radix then Some d else None
  | None => None
  end.

(** The longest prefix of digits, read in the radix; [None] when it is
    empty.  [acc] is the value read so far. *)
Fixpoint parse_digits (radix : Z) (acc : option Z) (x : string) : option Z :=
  match x with
  | String a r =>
      match digit_val radix a with
      | Some d => parse_digits radix (Some (radix * default 0 acc + d)) r
      | None => acc
      end
  | EmptyString => acc
  end.

(** [parseInt(x)] without a radix argument; [None] is [NaN].  The value
    is exact, as it is in JavaScript below 2^53. *)
Definition parseInt (x : string) : option Z :=
  let s1 := skip_space x in
  let '(sign, s2) :=
    match s1 with
    | String "-"%char r => (-1, r)
    | String "+"%char r => (1, r)
    | _ => (1, s1)
    end in
  let '(radix, s3) :=
    match s2 with
    | String "0"%char (String "x"%char r) => (16, r)
    | String "0"%char (String "X"%char r) => (16, r)
    | _ => (10, s2)
    end in
  Z.mul sign <$> parse_digits radix None s3.

(** ** [GET /api/hospitals/search] (lines 189-212) *)

(** [req.query].  [bloodGroup] and [organName], when given, are tags of
    the schema enums; [requestType] and [quantity] are the raw strings. *)
Record SearchQuery := mkQuery {
  q_requestType : option string;
  q_bloodGroup : option BloodGroup;
  q_organName : option OrganName;
  q_quantity : option string
}.

(** The [query] object handed to [Hospital.find], without its [_id] part. *)
Inductive Filter :=
| FBlood (g : BloodGroup) (n : option Z)   (* { $gte: parseInt(quantity) } *)
| FOxygen (n : option Z)
| FOrgan (o : OrganName) (g : BloodGroup). (* { $elemMatch: {...} } *)

(** [!quantity] is true for a missing and for an empty string. *)
Definition given (q : option string) : option string :=
  match q with
  | Some x => if String.eqb x "" then None else Some x
  | None => None
  end.

(** The branches on [requestType]; [None] is one of the 400 replies. *)
Definition build_query (q : SearchQuery) : option Filter :=
  match q_requestType q with
  | Some t =>
      if String.eqb t "Blood" then
        match q_bloodGroup q, given (q_quantity q) with
        | Some g, Some qty => Some (FBlood g (parseInt qty))
        | _, _ => None
        end
      else if String.eqb t "Oxygen" then
        match given (q_quantity q) with
        | Some qty => Some (FOxygen (parseInt qty))
        | None => None
        end
      else if String.eqb t "Organ" then
        match q_organName q, q_bloodGroup q with
        | Some o, Some g => Some (FOrgan o g)
        | _, _ => None
        end
      else None
  | None => None
  end.

(** Casting the filter: [NaN] as the operand of [$gte] on a [Number]
    path raises a [CastError]. *)
Definition filter_casts (f : Filter) : bool :=
  match f with
  | FBlood _ None | FOxygen None => false
  | _ => true
  end.

(** Whether a hospital document meets the filter. *)
Definition hospital_matches (f : Filter) (h : Hospital) : bool :=
  match f with
  | FBlood g (Some n) => n <=? blood_get g (bloodAvailability (details h))
  | FOxygen (Some n) => n <=? oxygenCylinders_total (details h)
  | FOrgan o g =>
      existsb (offer_matches (Some o) (Some g)) (organAvailability (details h))
  | _ => false
  end.

(** The route: the reply is an error response or the hospitals found, by
    [_id], with the selected [hospitalName]. *)
Definition search (s : Session) (q : SearchQuery) (st : State)
    : Response + gmap string string :=
  match userId s with
  | None => inl Unauthenticated
  | Some uid =>
      match build_query q with
      | None => inl InvalidArgument
      | Some f =>
          if filter_casts f then
            inr (hospitalName <$>
                   filter (fun kh => kh.1 <> uid /\ hospital_matches f kh.2 = true)
                          (hospitals st))
          else inl ServerError
      end
  end.

(** ** Hospital and administrator routes *)

(** [GET /api/hospital/details] (lines 168-177). *)
Definition hospital_details (s : Session) (st : State) : Response + Hospital :=
  match userId s with
  | None => inl Unauthenticated
  | Some uid =>
      if negb (bool_decide (userType s = hospital)) then inl Forbidden
      else
        match hospitals st !! uid with
        | None => inl NotFound
        | Some h => inr h
        end
  end.

(** The filter of [Request.deleteMany]: requester or provider is [id]. *)
Definition references (id : ObjectId) (r : Request) : Prop :=
  requestingHospital r = id \/ providingHospital r = Some id.

#[global] Instance references_dec id r : Decision (references id r).
Proof. unfold references. apply _. Defined.

(** [DELETE /api/admin/hospitals/:id] (lines 375-402). *)
Definition admin_delete_hospital (s : Session) (id : ObjectId) (st : State)
    : State * Response :=
  match userId s with
  | None => (st, Unauthenticated)
  | Some _ =>
      if negb (bool_decide (userType s = admin)) then (st, Forbidden)
      else
        match hospitals st !! id with
        | None => (st, NotFound)
        | Some _ =>
            (mkState (delete id (hospitals st))
                     (filter (fun kr => ~ references id kr.2) (requests st)),
             Success)
        end
  end.

(** ** All routes that write to the two collections *)

Inductive Route :=
| PostRequest (s : Session) (fresh : ObjectId) (body : Draft)
| PostAccept (s : Session) (requestId : ObjectId)
| PostReject (s : Session) (requestId : ObjectId)
| PostCancel (s : Session) (requestId : ObjectId)
| PostFinalize (s : Session) (requestId : ObjectId) (finalStatus : option string)
| DeleteHospital (s : Session) (id : ObjectId).

Definition route_session (r : Route) : Session :=
  match r with
  | PostRequest s _ _ | PostAccept s _ | PostReject s _ | PostCancel s _
  | PostFinalize s _ _ | DeleteHospital s _ => s
  end.

Definition run_route (r : Route) (st : State) : State * Response :=
  match r with
  | PostRequest s fresh body => create s fresh body st
  | PostAccept s i => accept s i st
  | PostReject s i => reject s i st
  | PostCancel s i => cancel s i st
  | PostFinalize s i f => finalize s i f st
  | DeleteHospital s i => admin_delete_hospital s i st
  end.

(** A body of [POST /api/requests] that names its caller as provider. *)
Definition names_self_as_provider (r : Route) : Prop :=
  match r with
  | PostRequest s _ body =>
      is_Some (userId s) /\ d_providingHospital body = userId s
  | _ => False
  end.

(** No request has its requester as provider. *)
Definition no_self_provider (st : State) : Prop :=
  forall j R, requests st !! j = Some R ->
    providingHospital R <> Some (requestingHospital R).

(** No request refers to hospital [id]. *)
Definition unreferenced (id : ObjectId) (st : State) : Prop :=
  forall j R, requests st !! j = Some R -> ~ references id R.

(** The fields of a request that say whose it is and what it asks for. *)
Definition same_identity (R R' : Request) : Prop :=
  requestingHospital R' = requestingHospital R
  /\ requestType R' = requestType R
  /\ req_details R' = req_details R
  /\ description R' = description R.

(** A stored request after a route: same identity, status not backward. *)
Definition kept (R R' : Request) : Prop :=
  same_identity R R' /\ forward (status R) (status R').

(** The routes that take requests out of the collection. *)
Definition removing (r : Route) : Prop :=
  match r with
  | PostCancel _ _ | DeleteHospital _ _ => True
  | _ => False
  end.


(** The query of a search for blood, built as the client builds it. *)
Definition blood_query (g : BloodGroup) (qty : string) : SearchQuery :=
  mkQuery (Some "Blood"%string) (Some g) None (Some qty).

Definition oxygen_query (qty : string) : SearchQuery :=
  mkQuery (Some "Oxygen"%string) None None (Some qty).

Definition organ_query (o : OrganName) (g : BloodGroup) : SearchQuery :=
  mkQuery (Some "Organ"%string) (Some g) (Some o) None.

(** ** Concrete scenario: three hospitals, one administrator *)

Module Scenario.

Definition no_blood : BloodAvailability := mkBlood 0 0 0 0 0 0 0 0.

Definition hospA : Hospital :=
  mkHospital "General" (mkDetails 0 (blood_set O_pos 5 no_blood) []).

Definition hospB : Hospital :=
  mkHospital "Mercy"
    (mkDetails 4 (blood_set O_pos 10 no_blood)
       [mkOffer Kidney O_pos 30 None; mkOffer Liver A_neg 52 None;
        mkOffer Kidney O_pos 45 (Some "second donor"%string)]).

Definition hospC : Hospital :=
  mkHospital "County" (mkDetails 1 (blood_set O_pos 2 no_blood) []).

Definition all_hospitals : gmap string Hospital :=
  <["a1" := hospA]> (<["b2" := hospB]> (<["c3" := hospC]> ∅)).

Definition sessA : Session := mkSession (Some "a1"%string) hospital.
Definition sessB : Session := mkSession (Some "b2"%string) hospital.
Definition sessC : Session := mkSession (Some "c3"%string) hospital.
Definition sessAdmin : Session := mkSession (Some "ad0"%string) admin.

(** Requests of hospital A, all Open. *)
Definition blood3 : Request :=
  mkRequest "a1" None Blood Open
            (mkReqDetails (Some O_pos) (Some 3) None) "3 units of O+".

Definition oxygen6 : Request :=
  mkRequest "a1" None Oxygen Open
            (mkReqDetails None (Some 6) None) "6 cylinders".

Definition kidney : Request :=
  mkRequest "a1" None Organ Open
            (mkReqDetails (Some O_pos) None (Some Kidney)) "kidney, O+".

Definition heart : Request :=
  mkRequest "a1" None Organ Open
            (mkReqDetails (Some O_pos) None (Some Heart)) "heart, O+".

Definition st0 : State :=
  mkState all_hospitals
    (<["r1" := blood3]> (<["r2" := oxygen6]>
       (<["r3" := kidney]> (<["r4" := heart]> ∅)))).

(** A body that tries to set the server-side fields. *)
Definition forged : Draft :=
  mkDraft None (Some "b2"%string) (Some "c3"%string) (Some Blood)
          (Some Closed) (mkReqDetails (Some O_pos) (Some 3) None)
          (Some "pre-closed"%string).

Definition plain : Draft :=
  mkDraft None None None (Some Blood) None
          (mkReqDetails (Some O_pos) (Some 3) None)
          (Some "3 units of O+"%string).

End Scenario.

(** ** Basic facts *)

Lemma blood_get_set_eq g v b : blood_get g (blood_set g v b) = v.
Proof. by destruct g. Qed.

Lemma blood_get_set_ne g g' v b :
  g' <> g -> blood_get g' (blood_set g v b) = blood_get g' b.
Proof. by destruct g, g'. Qed.

Lemma pull_offers_none o g l :
  (forall f, In f l -> offer_matches o g f = false) -> pull_offers o g l = l.
Proof.
  unfold pull_offers. induction l as [|f l IH]; intros Hno; simpl; [done|].
  rewrite (Hno f) by (by left). simpl. f_equal. apply IH.
  intros f' Hin. apply Hno. by right.
Qed.

Lemma spec_removes_one_offer_length o g before after :
  spec_removes_one_offer o g before after ->
  length before = S (length after).
Proof.
  intros (l1 & f & l2 & -> & -> & _).
  rewrite !length_app. simpl. lia.
Qed.

(** The checks shared by accept and reject, once the principal is known. *)
Lemma accept_passes s requestId st P R :
  userId s = Some P ->
  requests st !! requestId = Some R ->
  status R = Open ->
  requestingHospital R <> P ->
  accept s requestId st =
    match Hospital_findByIdAndUpdate P (build_update R) st with
    | None => (st, ServerError)
    | Some st1 =>
        (Request_findByIdAndUpdate requestId (set_status_provider Accepted P) st1,
         Success)
    end.
Proof.
  intros Hs HR Hopen Hne. unfold accept. rewrite Hs, HR.
  rewrite bool_decide_true by done. simpl.
  apply String.eqb_neq in Hne. by rewrite Hne.
Qed.

Lemma reject_passes s requestId st P R :
  userId s = Some P ->
  requests st !! requestId = Some R ->
  status R = Open ->
  requestingHospital R <> P ->
  reject s requestId st =
    (Request_findByIdAndUpdate requestId (set_status_provider Rejected P) st,
     Success).
Proof.
  intros Hs HR Hopen Hne. unfold reject. rewrite Hs, HR.
  rewrite bool_decide_true by done. simpl.
  apply String.eqb_neq in Hne. by rewrite Hne.
Qed.

(** Neither accept nor reject reads [req.session.userType]. *)
Lemma accept_ignores_userType u t1 t2 requestId st :
  accept (mkSession u t1) requestId st = accept (mkSession u t2) requestId st.
Proof. reflexivity. Qed.

Lemma reject_ignores_userType u t1 t2 requestId st :
  reject (mkSession u t1) requestId st = reject (mkSession u t2) requestId st.
Proof. reflexivity. Qed.

Lemma update_hospital_pull_none o g h :
  (forall f, In f (organAvailability (details h)) -> offer_matches o g f = false) ->
  update_hospital (UpdPull o g) h = h.
Proof.
  intros Hno. destruct h as [name [ox bl org]]. unfold update_hospital. simpl in *.
  by rewrite pull_offers_none.
Qed.

(** ** Preconditions of the provider-side operations *)

(** C5: for Accept and Reject by an authenticated principal [P]: an absent
    request gives NotFound; a request whose status is not Open gives
    InvalidState; an Open request whose requestingHospital is [P] gives
    SelfAction.  Whatever its status, a request of [P] itself is never
    accepted or rejected by [P], and the store is left as it was. *)
Theorem provider_preconditions s requestId st P :
  userId s = Some P ->
  (requests st !! requestId = None ->
     accept s requestId st = (st, NotFound)
     /\ reject s requestId st = (st, NotFound))
  /\ (forall R, requests st !! requestId = Some R -> status R <> Open ->
     accept s requestId st = (st, InvalidState)
     /\ reject s requestId st = (st, InvalidState))
  /\ (forall R, requests st !! requestId = Some R -> status R = Open ->
     requestingHospital R = P ->
     accept s requestId st = (st, SelfAction)
     /\ reject s requestId st = (st, SelfAction))
  /\ (forall R, requests st !! requestId = Some R -> requestingHospital R = P ->
     (succeeded (snd (accept s requestId st)) = false
      /\ fst (accept s requestId st) = st)
     /\ (succeeded (snd (reject s requestId st)) = false
      /\ fst (reject s requestId st) = st)).
Proof.
  intros Hs. unfold accept, reject. rewrite Hs.
  split; [|split; [|split]].
  - by intros ->.
  - intros R HR Hst. rewrite HR. by rewrite bool_decide_false.
  - intros R HR Hst <-. rewrite HR. rewrite bool_decide_true by done. simpl.
    by rewrite String.eqb_refl.
  - intros R HR <-. rewrite HR, String.eqb_refl.
    by destruct (bool_decide (status R = Open)).
Qed.

Lemma provider_preconditions_witness :
  userId Scenario.sessA = Some "a1"%string
  /\ accept Scenario.sessA "r1" Scenario.st0 = (Scenario.st0, SelfAction)
  /\ reject Scenario.sessA "r1" Scenario.st0 = (Scenario.st0, SelfAction)
  /\ accept Scenario.sessB "zz" Scenario.st0 = (Scenario.st0, NotFound).
Proof.
  split; [reflexivity|].
  pose proof (provider_preconditions Scenario.sessA "r1" Scenario.st0 "a1"
                eq_refl) as (_ & _ & Hself & _).
  destruct (Hself Scenario.blood3) as [Ha Hr];
    [vm_compute; reflexivity | reflexivity | reflexivity |].
  pose proof (provider_preconditions Scenario.sessB "zz" Scenario.st0 "b2"
                eq_refl) as (Habs & _).
  destruct Habs as [Hn _]; [vm_compute; reflexivity|].
  exact (conj Ha (conj Hr Hn)).
Defined.

(** Cancel looks at the owner only: the request is deleted whatever its
    status. *)
Lemma cancel_deletes s requestId st P R :
  userId s = Some P ->
  requests st !! requestId = Some R ->
  requestingHospital R = P ->
  cancel s requestId st = (Request_findByIdAndDelete requestId st, Success)
  /\ requests (Request_findByIdAndDelete requestId st) !! requestId = None.
Proof.
  intros Hs HR <-. unfold cancel. rewrite Hs, HR, String.eqb_refl. simpl.
  split; [done | apply lookup_delete_eq].
Qed.

(** ** Reject *)

(** C6: Reject of an Open request by a principal other than its requester
    succeeds, sets status Rejected and providingHospital to the principal,
    and leaves the whole hospitals collection (every inventory) and every
    other request as they were. *)
Theorem reject_records_provider_only s requestId st P R :
  userId s = Some P ->
  requests st !! requestId = Some R ->
  status R = Open ->
  requestingHospital R <> P ->
  exists st' R',
    reject s requestId st = (st', Success)
    /\ hospitals st' = hospitals st
    /\ requests st' !! requestId = Some R'
    /\ status R' = Rejected
    /\ providingHospital R' = Some P
    /\ requestingHospital R' = requestingHospital R
    /\ (forall j, j <> requestId -> requests st' !! j = requests st !! j).
Proof.
  intros Hs HR Hopen Hne.
  rewrite (reject_passes s requestId st P R) by done.
  eexists _, (set_status_provider Rejected P R). split; [reflexivity|].
  simpl. repeat split.
  - by rewrite lookup_alter_eq, HR.
  - intros j Hj. by rewrite lookup_alter_ne.
Qed.

Lemma reject_records_provider_only_witness :
  exists st' R',
    reject Scenario.sessB "r1" Scenario.st0 = (st', Success)
    /\ hospitals st' = hospitals Scenario.st0
    /\ requests st' !! "r1" = Some R'
    /\ status R' = Rejected
    /\ providingHospital R' = Some "b2"%string
    /\ requestingHospital R' = "a1"%string
    /\ (forall j, j <> "r1"%string ->
        requests st' !! j = requests Scenario.st0 !! j).
Proof.
  apply (reject_records_provider_only Scenario.sessB "r1" Scenario.st0 "b2"
           Scenario.blood3).
  - reflexivity.
  - vm_compute; reflexivity.
  - reflexivity.
  - discriminate.
Defined.

(** ** Finalize *)

(** C7: Finalize by an authenticated principal [P]: an absent request gives
    NotFound; a request of another hospital gives Forbidden; for a request
    of [P], a target status other than Closed gives InvalidArgument, and
    the target Closed sets status Closed and leaves the hospitals
    collection untouched.  Failures leave the store as it was. *)
Theorem finalize_outcomes s requestId finalStatus st P :
  userId s = Some P ->
  (requests st !! requestId = None ->
     finalize s requestId finalStatus st = (st, NotFound))
  /\ (forall R, requests st !! requestId = Some R ->
     requestingHospital R <> P ->
     finalize s requestId finalStatus st = (st, Forbidden))
  /\ (forall R, requests st !! requestId = Some R ->
     requestingHospital R = P ->
     finalStatus <> Some "Closed"%string ->
     finalize s requestId finalStatus st = (st, InvalidArgument))
  /\ (forall R, requests st !! requestId = Some R ->
     requestingHospital R = P ->
     finalStatus = Some "Closed"%string ->
     exists st' R',
       finalize s requestId finalStatus st = (st', Success)
       /\ hospitals st' = hospitals st
       /\ requests st' !! requestId = Some R'
       /\ status R' = Closed
       /\ providingHospital R' = providingHospital R
       /\ (forall j, j <> requestId -> requests st' !! j = requests st !! j)).
Proof.
  intros Hs. unfold finalize. rewrite Hs.
  split; [|split; [|split]].
  - by intros ->.
  - intros R HR Hne. rewrite HR. apply String.eqb_neq in Hne. by rewrite Hne.
  - intros R HR <- Hbad. rewrite HR, String.eqb_refl. simpl.
    by rewrite bool_decide_false.
  - intros R HR <- ->. rewrite HR, String.eqb_refl. simpl.
    eexists _, (set_status Closed R). split; [reflexivity|]. simpl.
    repeat split.
    + by rewrite lookup_alter_eq, HR.
    + intros j Hj. by rewrite lookup_alter_ne.
Qed.

Lemma finalize_outcomes_witness :
  userId Scenario.sessA = Some "a1"%string
  /\ finalize Scenario.sessB "r1" (Some "Closed"%string) Scenario.st0
     = (Scenario.st0, Forbidden)
  /\ finalize Scenario.sessA "r1" (Some "Open"%string) Scenario.st0
     = (Scenario.st0, InvalidArgument)
  /\ snd (finalize Scenario.sessA "r1" (Some "Closed"%string) Scenario.st0)
     = Success.
Proof.
  split; [reflexivity|].
  pose proof (finalize_outcomes Scenario.sessB "r1" (Some "Closed"%string)
                Scenario.st0 "b2" eq_refl) as (_ & Hforb & _).
  pose proof (finalize_outcomes Scenario.sessA "r1" (Some "Open"%string)
                Scenario.st0 "a1" eq_refl) as (_ & _ & Harg & _).
  pose proof (finalize_outcomes Scenario.sessA "r1" (Some "Closed"%string)
                Scenario.st0 "a1" eq_refl) as (_ & _ & _ & Hok).
  split; [|split].
  - apply (Hforb Scenario.blood3); [vm_compute; reflexivity | discriminate].
  - apply (Harg Scenario.blood3);
      [vm_compute; reflexivity | reflexivity | discriminate].
  - destruct (Hok Scenario.blood3) as (st' & R' & -> & _);
      [vm_compute; reflexivity | reflexivity | reflexivity | reflexivity].
Defined.

(** ** Accept of an organ request without a matching offer *)

(** C10: Accept of an Open Organ request by a hospital [P] other than its
    requester, when no organ offer of [P] matches the requested
    (organName, bloodGroup), succeeds all the same: the hospitals
    collection is unchanged and the request becomes Accepted with
    providingHospital [P]. *)
Theorem accept_organ_without_offer s requestId st P R h :
  userId s = Some P ->
  requests st !! requestId = Some R ->
  status R = Open ->
  requestingHospital R <> P ->
  requestType R = Organ ->
  hospitals st !! P = Some h ->
  (forall f, In f (organAvailability (details h)) ->
     offer_matches (rd_organName (req_details R))
                   (rd_bloodGroup (req_details R)) f = false) ->
  exists st' R',
    accept s requestId st = (st', Success)
    /\ hospitals st' = hospitals st
    /\ requests st' !! requestId = Some R'
    /\ status R' = Accepted
    /\ providingHospital R' = Some P.
Proof.
  intros Hs HR Hopen Hne Hty Hh Hno.
  rewrite (accept_passes s requestId st P R) by done.
  unfold build_update, Hospital_findByIdAndUpdate. rewrite Hty. simpl.
  eexists _, (set_status_provider Accepted P R). split; [reflexivity|].
  simpl. repeat split.
  - apply alter_id. intros h' Hh'. rewrite Hh in Hh'. injection Hh' as <-.
    by apply update_hospital_pull_none.
  - by rewrite lookup_alter_eq, HR.
Qed.

Lemma accept_organ_without_offer_witness :
  exists st' R',
    accept Scenario.sessB "r4" Scenario.st0 = (st', Success)
    /\ hospitals st' = hospitals Scenario.st0
    /\ requests st' !! "r4" = Some R'
    /\ status R' = Accepted
    /\ providingHospital R' = Some "b2"%string.
Proof.
  apply (accept_organ_without_offer Scenario.sessB "r4" Scenario.st0 "b2"
           Scenario.heart Scenario.hospB).
  - reflexivity.
  - vm_compute; reflexivity.
  - reflexivity.
  - discriminate.
  - reflexivity.
  - vm_compute; reflexivity.
  - intros f Hin. simpl in Hin.
    destruct Hin as [<- | [<- | [<- | []]]]; reflexivity.
Defined.

(** ** Accept: inventory debit and status change *)

(** Accept of an Open request of another hospital whose details cast. *)
Lemma accept_applies s requestId st P R u :
  userId s = Some P ->
  requests st !! requestId = Some R ->
  status R = Open ->
  requestingHospital R <> P ->
  cast_update (build_update R) = Some u ->
  accept s requestId st =
    (mkState (alter (update_hospital u) P (hospitals st))
             (alter (set_status_provider Accepted P) requestId (requests st)),
     Success).
Proof.
  intros Hs HR Hopen Hne Hu.
  rewrite (accept_passes s requestId st P R) by done.
  unfold Hospital_findByIdAndUpdate. by rewrite Hu.
Qed.

Lemma cast_update_present R :
  details_present R ->
  exists u, cast_update (build_update R) = Some u
            /\ (requestType R <> Organ -> u = build_update R)
            /\ (requestType R = Organ ->
                u = UpdPull (rd_organName (req_details R))
                            (rd_bloodGroup (req_details R))).
Proof.
  unfold details_present, build_update.
  destruct (requestType R) eqn:Hty.
  - intros [q Hq]. rewrite Hq. simpl. eexists. by repeat split.
  - intros [[g Hg] [q Hq]]. rewrite Hg, Hq. simpl. eexists. by repeat split.
  - intros _. eexists. by repeat split.
Qed.

(** C2 (as the code has it): Accept of an Open request [R] by a hospital
    [P] other than its requester succeeds, sets status Accepted and
    providingHospital [P], and changes the inventory of [P] by the type of
    [R]: Blood lowers the count of the requested group by the quantity,
    Oxygen lowers the oxygen total by the quantity, Organ removes every
    offer of [P] that matches (organName, bloodGroup), however many there
    are, and keeps the others in order.  Nothing else in the inventory of
    [P] changes, and no other hospital is touched. *)
Theorem accept_debits_provider s requestId st P R h :
  userId s = Some P ->
  requests st !! requestId = Some R ->
  status R = Open ->
  requestingHospital R <> P ->
  hospitals st !! P = Some h ->
  details_present R ->
  exists st' R' d',
    accept s requestId st = (st', Success)
    /\ requests st' !! requestId = Some R'
    /\ status R' = Accepted
    /\ providingHospital R' = Some P
    /\ hospitals st' !! P = Some (mkHospital (hospitalName h) d')
    /\ (forall j, j <> P -> hospitals st' !! j = hospitals st !! j)
    /\ match requestType R with
       | Blood =>
           forall g q,
             rd_bloodGroup (req_details R) = Some g ->
             rd_quantity (req_details R) = Some q ->
             blood_get g (bloodAvailability d')
               = blood_get g (bloodAvailability (details h)) - q
             /\ (forall g', g' <> g ->
                   blood_get g' (bloodAvailability d')
                   = blood_get g' (bloodAvailability (details h)))
             /\ oxygenCylinders_total d' = oxygenCylinders_total (details h)
             /\ organAvailability d' = organAvailability (details h)
       | Oxygen =>
           forall q,
             rd_quantity (req_details R) = Some q ->
             oxygenCylinders_total d' = oxygenCylinders_total (details h) - q
             /\ bloodAvailability d' = bloodAvailability (details h)
             /\ organAvailability d' = organAvailability (details h)
       | Organ =>
           organAvailability d'
             = List.filter
                 (fun f => negb (offer_matches (rd_organName (req_details R))
                                               (rd_bloodGroup (req_details R)) f))
                 (organAvailability (details h))
           /\ oxygenCylinders_total d' = oxygenCylinders_total (details h)
           /\ bloodAvailability d' = bloodAvailability (details h)
       end.
Proof.
  intros Hs HR Hopen Hne Hh Hpres.
  destruct (cast_update_present R Hpres) as (u & Hu & Hsame & Hpull).
  rewrite (accept_applies s requestId st P R u) by done.
  exists (mkState (alter (update_hospital u) P (hospitals st))
            (alter (set_status_provider Accepted P) requestId (requests st))),
         (set_status_provider Accepted P R),
         (apply_update u (details h)).
  split; [reflexivity|]. simpl.
  split; [by rewrite lookup_alter_eq, HR|].
  split; [reflexivity|]. split; [reflexivity|].
  split; [by rewrite lookup_alter_eq, Hh|].
  split; [intros j Hj; by rewrite lookup_alter_ne|].
  unfold details_present in Hpres. unfold build_update in Hsame, Hpull.
  destruct (requestType R) eqn:Hty.
  - intros q Hq. rewrite Hsame by done. rewrite Hq. simpl.
    split; [lia | done].
  - intros g q Hg Hq. rewrite Hsame by done. rewrite Hg, Hq. simpl.
    split; [rewrite blood_get_set_eq; lia|].
    split; [intros g' Hg'; by rewrite blood_get_set_ne|]. done.
  - rewrite Hpull by done. simpl. done.
Qed.

Lemma accept_debits_provider_witness :
  exists st' R' d',
    accept Scenario.sessB "r1" Scenario.st0 = (st', Success)
    /\ requests st' !! "r1" = Some R'
    /\ status R' = Accepted
    /\ providingHospital R' = Some "b2"%string
    /\ hospitals st' !! "b2"
       = Some (mkHospital (hospitalName Scenario.hospB) d')
    /\ blood_get O_pos (bloodAvailability d') = 7.
Proof.
  destruct (accept_debits_provider Scenario.sessB "r1" Scenario.st0 "b2"
              Scenario.blood3 Scenario.hospB)
    as (st' & R' & d' & Hacc & HR' & Hst & Hprov & Hh' & _ & Hdebit).
  - reflexivity.
  - vm_compute; reflexivity.
  - reflexivity.
  - discriminate.
  - vm_compute; reflexivity.
  - split; eexists; reflexivity.
  - exists st', R', d'. repeat (split; [assumption|]).
    destruct (Hdebit O_pos 3 eq_refl eq_refl) as [-> _]. reflexivity.
Defined.

(** C2 as stated fails on an Organ request: a provider with two matching
    offers loses both, so the inventory after the call is not the
    inventory before with one matching offer taken out. *)
Lemma accept_organ_removes_all_counterexample :
  exists st' h',
    accept Scenario.sessB "r3" Scenario.st0 = (st', Success)
    /\ hospitals st' !! "b2" = Some h'
    /\ organAvailability (details h') = [mkOffer Liver A_neg 52 None]
    /\ ~ spec_removes_one_offer (Some Kidney) (Some O_pos)
           (organAvailability (details Scenario.hospB))
           (organAvailability (details h')).
Proof.
  eexists _, _. split; [vm_compute; reflexivity|].
  split; [vm_compute; reflexivity|].
  split; [reflexivity|].
  intros Hone. apply spec_removes_one_offer_length in Hone. discriminate.
Qed.

(** ** Accept does not check sufficiency *)

(** C3 (as the code has it): the debit of a Blood or Oxygen request is
    issued without comparing the quantity with the stock.  When the
    quantity exceeds the count it is taken from, Accept still succeeds and
    the count becomes the negative difference; no response of the route
    reports insufficient inventory. *)
Theorem accept_debit_unchecked s requestId st P R h c q :
  userId s = Some P ->
  requests st !! requestId = Some R ->
  status R = Open ->
  requestingHospital R <> P ->
  hospitals st !! P = Some h ->
  debited_count R (details h) = Some c ->
  rd_quantity (req_details R) = Some q ->
  c < q ->
  exists st' h',
    accept s requestId st = (st', Success)
    /\ hospitals st' !! P = Some h'
    /\ debited_count R (details h') = Some (c - q)
    /\ c - q < 0.
Proof.
  intros Hs HR Hopen Hne Hh Hc Hq Hlt.
  unfold debited_count in *.
  destruct (requestType R) eqn:Hty; [| |discriminate].
  - injection Hc as <-.
    rewrite (accept_applies s requestId st P R (UpdInc PathOxygen (Some (- q))));
      [|done..|by unfold build_update; rewrite Hty, Hq].
    eexists _, _. split; [reflexivity|]. simpl.
    rewrite lookup_alter_eq, Hh. simpl.
    split; [reflexivity|]. simpl. split; [f_equal; lia | lia].
  - destruct (rd_bloodGroup (req_details R)) as [g|] eqn:Hg; [|discriminate].
    simpl in Hc. injection Hc as <-.
    rewrite (accept_applies s requestId st P R
               (UpdInc (PathBlood (Some g)) (Some (- q))));
      [|done..|by unfold build_update; rewrite Hty, Hg, Hq].
    eexists _, _. split; [reflexivity|]. simpl.
    rewrite lookup_alter_eq, Hh. simpl.
    split; [reflexivity|]. simpl. rewrite blood_get_set_eq.
    split; [f_equal; lia | lia].
Qed.

Lemma accept_debit_unchecked_witness :
  2 < 3
  /\ exists st' h',
       accept Scenario.sessC "r1" Scenario.st0 = (st', Success)
       /\ hospitals st' !! "c3" = Some h'
       /\ debited_count Scenario.blood3 (details h') = Some (2 - 3)
       /\ 2 - 3 < 0.
Proof.
  split; [lia|].
  apply (accept_debit_unchecked Scenario.sessC "r1" Scenario.st0 "c3"
           Scenario.blood3 Scenario.hospC 2 3).
  - reflexivity.
  - vm_compute; reflexivity.
  - reflexivity.
  - discriminate.
  - vm_compute; reflexivity.
  - reflexivity.
  - reflexivity.
  - lia.
Defined.

(** C3 as stated fails: hospital C holds 2 units of O+ and accepts a
    request for 3.  The call succeeds, and the inventory, non-negative
    before, holds -1 units after. *)
Lemma accept_goes_negative_counterexample :
  inventory_nonneg (details Scenario.hospC)
  /\ exists st' h',
       accept Scenario.sessC "r1" Scenario.st0 = (st', Success)
       /\ hospitals st' !! "c3" = Some h'
       /\ blood_get O_pos (bloodAvailability (details h')) = -1
       /\ ~ inventory_nonneg (details h').
Proof.
  split.
  - split; [simpl; lia | intros g; destruct g; simpl; lia].
  - eexists _, _. split; [vm_compute; reflexivity|].
    split; [vm_compute; reflexivity|].
    split; [reflexivity|].
    intros [_ Hblood]. specialize (Hblood O_pos). simpl in Hblood. lia.
Qed.

(** ** Creating a request *)

(** C4 (as the code has it): a create call by principal [H] with a
    requestType, a non-empty description and an unused id stores and
    returns a request whose requestingHospital is [H] whatever the body
    says; its status is the status of the body when the body has one and
    Open otherwise, and its providingHospital is the one of the body,
    null when the body has none. *)
Theorem create_forces_requester_only s fresh body st H ty descr :
  userId s = Some H ->
  d_requestType body = Some ty ->
  d_description body = Some descr ->
  descr <> ""%string ->
  requests st !! default fresh (d_id body) = None ->
  exists r,
    create s fresh body st
      = (mkState (hospitals st)
                 (<[default fresh (d_id body) := r]> (requests st)),
         Created r)
    /\ requestingHospital r = H
    /\ status r = default Open (d_status body)
    /\ providingHospital r = d_providingHospital body
    /\ (d_status body = None -> status r = Open)
    /\ (d_providingHospital body = None -> providingHospital r = None).
Proof.
  intros Hs Hty Hd Hne Hfresh. unfold create, new_Request. rewrite Hs. simpl.
  rewrite Hty, Hd. apply String.eqb_neq in Hne. rewrite Hne, Hfresh.
  eexists. split; [reflexivity|]. simpl.
  repeat split; [by intros -> | by intros ->].
Qed.

Lemma create_forces_requester_only_witness :
  exists r,
    create Scenario.sessA "r9" Scenario.plain Scenario.st0
      = (mkState (hospitals Scenario.st0)
                 (<["r9" := r]> (requests Scenario.st0)),
         Created r)
    /\ requestingHospital r = "a1"%string
    /\ status r = Open
    /\ providingHospital r = None.
Proof.
  destruct (create_forces_requester_only Scenario.sessA "r9" Scenario.plain
              Scenario.st0 "a1" Blood "3 units of O+")
    as (r & Hc & Hreq & _ & _ & Hopen & Hnull).
  - reflexivity.
  - reflexivity.
  - reflexivity.
  - discriminate.
  - vm_compute; reflexivity.
  - exists r. split; [exact Hc|]. split; [exact Hreq|].
    split; [apply Hopen; reflexivity | apply Hnull; reflexivity].
Defined.

(** C4 as stated fails: a body that carries status Closed and a
    providingHospital is stored with both; only its requestingHospital is
    replaced by the caller. *)
Lemma create_keeps_supplied_status_counterexample :
  exists st' r,
    create Scenario.sessA "r9" Scenario.forged Scenario.st0 = (st', Created r)
    /\ requestingHospital r = "a1"%string
    /\ status r = Closed
    /\ providingHospital r = Some "c3"%string
    /\ ~ (status r = Open /\ providingHospital r = None).
Proof.
  eexists _, _. split; [vm_compute; reflexivity|].
  repeat split. intros [Hst _]. discriminate.
Qed.

(** ** The status of a request over the lifecycle operations *)

Lemma keeps_refl (rel : Status -> Status -> Prop) st :
  (forall x, rel x x) -> keeps rel st st.
Proof. intros Hrefl j R HR. eauto. Qed.

Lemma keeps_alter (rel : Status -> Status -> Prop) f i hs hs' rs :
  (forall x, rel x x) ->
  (forall R, rs !! i = Some R -> rel (status R) (status (f R))) ->
  keeps rel (mkState hs rs) (mkState hs' (alter f i rs)).
Proof.
  intros Hrefl Hf j R HR. simpl in *.
  destruct (decide (i = j)) as [->|Hne].
  - rewrite lookup_alter_eq, HR. simpl. eauto.
  - rewrite lookup_alter_ne by done. eauto.
Qed.

Lemma forward_refl x : forward x x.
Proof. by split. Qed.

Lemma forward_trans x y z : forward x y -> forward y z -> forward x z.
Proof. intros [H1 H2] [H3 H4]. split; [lia | auto]. Qed.

Lemma run_op_forward op st : keeps forward st (run_op op st).
Proof.
  destruct st as [hs rs].
  destruct op as [s r | s r | s r f]; simpl.
  - unfold accept. destruct (userId s) as [p|]; simpl;
      [|apply keeps_refl, forward_refl].
    destruct (rs !! r) as [R0|] eqn:HR0; simpl;
      [|apply keeps_refl, forward_refl].
    destruct (bool_decide (status R0 = Open)) eqn:Hopen; simpl;
      [|apply keeps_refl, forward_refl].
    destruct (_ =? _)%string; simpl; [apply keeps_refl, forward_refl|].
    unfold Hospital_findByIdAndUpdate.
    destruct (cast_update _); simpl; [|apply keeps_refl, forward_refl].
    apply keeps_alter; [apply forward_refl|].
    intros R HR. simpl in HR. rewrite HR0 in HR. injection HR as <-.
    apply bool_decide_eq_true in Hopen. rewrite Hopen.
    split; [simpl; lia | discriminate].
  - unfold reject. destruct (userId s) as [p|]; simpl;
      [|apply keeps_refl, forward_refl].
    destruct (rs !! r) as [R0|] eqn:HR0; simpl;
      [|apply keeps_refl, forward_refl].
    destruct (bool_decide (status R0 = Open)) eqn:Hopen; simpl;
      [|apply keeps_refl, forward_refl].
    destruct (_ =? _)%string; simpl; [apply keeps_refl, forward_refl|].
    apply keeps_alter; [apply forward_refl|].
    intros R HR. simpl in HR. rewrite HR0 in HR. injection HR as <-.
    apply bool_decide_eq_true in Hopen. rewrite Hopen.
    split; [simpl; lia | discriminate].
  - unfold finalize. destruct (userId s) as [p|]; simpl;
      [|apply keeps_refl, forward_refl].
    destruct (rs !! r) as [R0|] eqn:HR0; simpl;
      [|apply keeps_refl, forward_refl].
    destruct (_ =? _)%string; simpl; [|apply keeps_refl, forward_refl].
    destruct (bool_decide _); simpl; [|apply keeps_refl, forward_refl].
    apply keeps_alter; [apply forward_refl|].
    intros R HR. split; [|done]. simpl. destruct (status R); simpl; lia.
Qed.

(** No sequence of accept, reject and finalize calls lowers the rank of a
    status or takes a request out of Closed. *)
Lemma run_ops_forward ops st : keeps forward st (run_ops ops st).
Proof.
  revert st. induction ops as [|op ops IH]; intros st.
  - apply keeps_refl, forward_refl.
  - intros j R HR. simpl.
    destruct (run_op_forward op st j R HR) as (R1 & HR1 & Hf1).
    destruct (IH (run_op op st) j R1 HR1) as (R2 & HR2 & Hf2).
    exists R2. split; [done|]. by eapply forward_trans.
Qed.

(** C1: Rejected is not terminal in the code.  Hospital B rejects the
    Open request r1 of hospital A; hospital A then finalizes it with
    target Closed: the call succeeds and the Rejected request is Closed.
    The same call closes a request that is still Open. *)
Theorem finalize_leaves_rejected :
  let st1 := run_op (OpReject Scenario.sessB "r1") Scenario.st0 in
  let st2 := run_op (OpFinalize Scenario.sessA "r1" (Some "Closed"%string)) st1 in
  status <$> requests st1 !! "r1" = Some Rejected
  /\ terminal Rejected = true
  /\ snd (finalize Scenario.sessA "r1" (Some "Closed"%string) st1) = Success
  /\ status <$> requests st2 !! "r1" = Some Closed
  /\ status <$> requests Scenario.st0 !! "r2" = Some Open
  /\ status <$> requests
       (run_op (OpFinalize Scenario.sessA "r2" (Some "Closed"%string))
               Scenario.st0) !! "r2" = Some Closed.
Proof. vm_compute. repeat split. Qed.

(** ** Administrators on the provider side *)

(** C8: an administrator session passes accept and reject.  With the
    session of the administrator ad0, accept of r1 and reject of r2
    both succeed; the requests become Accepted and Rejected with the
    administrator recorded as providingHospital, and no inventory
    changes, since no hospital document has the administrator's id. *)
Theorem admin_acts_as_provider :
  userType Scenario.sessAdmin = admin
  /\ hospitals Scenario.st0 !! "ad0" = None
  /\ snd (accept Scenario.sessAdmin "r1" Scenario.st0) = Success
  /\ requests (fst (accept Scenario.sessAdmin "r1" Scenario.st0)) !! "r1"
     = Some (set_status_provider Accepted "ad0" Scenario.blood3)
  /\ hospitals (fst (accept Scenario.sessAdmin "r1" Scenario.st0))
     = hospitals Scenario.st0
  /\ snd (reject Scenario.sessAdmin "r2" Scenario.st0) = Success
  /\ requests (fst (reject Scenario.sessAdmin "r2" Scenario.st0)) !! "r2"
     = Some (set_status_provider Rejected "ad0" Scenario.oxygen6).
Proof. vm_compute. repeat split. Qed.

(** ** Two accepts in flight *)

(** A handler that runs alone, without another handler between its
    awaits, is the accept route. *)
Lemma accept_step_alone s requestId st P :
  userId s = Some P ->
  let '(k1, s1) := accept_step P requestId AtFind st in
  let '(k2, s2) := accept_step P requestId k1 s1 in
  let '(k3, s3) := accept_step P requestId k2 s2 in
  (s3, k3)
  = (fst (accept s requestId st), Replied (snd (accept s requestId st))).
Proof.
  intros Hs. unfold accept. rewrite Hs. simpl.
  destruct (requests st !! requestId) as [R|]; simpl; [|done].
  destruct (bool_decide (status R = Open)); simpl; [|done].
  destruct (_ =? _)%string; simpl; [done|].
  destruct (Hospital_findByIdAndUpdate _ _ _); simpl; done.
Qed.

(** One after the other, the second accept is refused. *)
Lemma race_serial :
  let r := race_run "b2" "c3" "r1"
             [First; First; First; Second; Second; Second] Scenario.st0 in
  pc1 r = Replied Success /\ pc2 r = Replied InvalidState.
Proof. vm_compute. by split. Qed.

(** C9: the status check and the status write of accept are two
    database operations.  When hospitals B and C both read request r1
    while it is Open, both handlers go on: both reply 200, both
    inventories are debited by 3 units of O+ (10 to 7 and 2 to -1), and
    the request names the later writer, C, as providingHospital. *)
Theorem concurrent_accepts_both_succeed :
  let r := race_run "b2" "c3" "r1"
             [First; Second; First; First; Second; Second] Scenario.st0 in
  pc1 r = Replied Success
  /\ pc2 r = Replied Success
  /\ (blood_get O_pos ∘ bloodAvailability ∘ details) <$> hospitals (db r) !! "b2"
     = Some 7
  /\ (blood_get O_pos ∘ bloodAvailability ∘ details) <$> hospitals (db r) !! "c3"
     = Some (-1)
  /\ requests (db r) !! "r1"
     = Some (set_status_provider Accepted "c3" Scenario.blood3).
Proof. vm_compute. repeat split. Qed.

(** ** Further properties of the request routes *)

(** What a successful accept or reject did. *)
Lemma accept_success_inv s requestId st st' :
  accept s requestId st = (st', Success) ->
  exists P R u,
    userId s = Some P /\ requests st !! requestId = Some R
    /\ status R = Open /\ requestingHospital R <> P
    /\ cast_update (build_update R) = Some u
    /\ st' = mkState (alter (update_hospital u) P (hospitals st))
               (alter (set_status_provider Accepted P) requestId (requests st)).
Proof.
  unfold accept. destruct (userId s) as [P|]; [|discriminate].
  destruct (requests st !! requestId) as [R|]; [|discriminate].
  destruct (bool_decide (status R = Open)) eqn:Hopen; [|discriminate]. simpl.
  destruct (_ =? _)%string eqn:Hown; [discriminate|].
  unfold Hospital_findByIdAndUpdate.
  destruct (cast_update _) as [u|] eqn:Hu; [|discriminate].
  intros [= <-]. exists P, R, u.
  apply bool_decide_eq_true in Hopen. apply String.eqb_neq in Hown. done.
Qed.



(** X1: cancel by an authenticated principal: an absent request gives
    NotFound, a request of another hospital gives Forbidden, and a request
    of the caller is deleted in whatever status it is; the hospitals
    collection, and with it any debit made by an earlier accept, and all
    other requests stay as they were. *)
Theorem cancel_outcomes s requestId st P :
  userId s = Some P ->
  (requests st !! requestId = None -> cancel s requestId st = (st, NotFound))
  /\ (forall R, requests st !! requestId = Some R ->
      requestingHospital R <> P ->
      cancel s requestId st = (st, Forbidden))
  /\ (forall R, requests st !! requestId = Some R ->
      requestingHospital R = P ->
      exists st',
        cancel s requestId st = (st', Success)
        /\ requests st' !! requestId = None
        /\ hospitals st' = hospitals st
        /\ (forall j, j <> requestId -> requests st' !! j = requests st !! j)).
Proof.
  intros Hs. unfold cancel. rewrite Hs. split; [|split].
  - by intros ->.
  - intros R HR Hne. rewrite HR. apply String.eqb_neq in Hne. by rewrite Hne.
  - intros R HR <-. rewrite HR, String.eqb_refl. simpl.
    eexists. split; [reflexivity|]. simpl.
    split; [apply lookup_delete_eq|]. split; [done|].
    intros j Hj. by apply lookup_delete_ne.
Qed.

Lemma cancel_outcomes_witness :
  cancel Scenario.sessB "r1" Scenario.st0 = (Scenario.st0, Forbidden)
  /\ exists st',
       cancel Scenario.sessA "r1" (fst (accept Scenario.sessB "r1" Scenario.st0))
         = (st', Success)
       /\ requests st' !! "r1" = None
       /\ hospitals st'
          = hospitals (fst (accept Scenario.sessB "r1" Scenario.st0)).
Proof.
  split.
  - pose proof (cancel_outcomes Scenario.sessB "r1" Scenario.st0 "b2" eq_refl)
      as (_ & Hforb & _).
    apply (Hforb Scenario.blood3); [vm_compute; reflexivity | discriminate].
  - pose proof (cancel_outcomes Scenario.sessA "r1"
                  (fst (accept Scenario.sessB "r1" Scenario.st0)) "a1" eq_refl)
      as (_ & _ & Hdel).
    destruct (Hdel (set_status_provider Accepted "b2" Scenario.blood3))
      as (st' & Hc & Hgone & Hh & _);
      [vm_compute; reflexivity | reflexivity |].
    exists st'. done.
Defined.





(** X4: finalize is idempotent: repeating a successful finalize succeeds
    again and leaves the store exactly as the first call left it. *)
Theorem finalize_idempotent s requestId finalStatus st st' :
  finalize s requestId finalStatus st = (st', Success) ->
  finalize s requestId finalStatus st' = (st', Success).
Proof.
  unfold finalize. destruct (userId s) as [P|]; [|discriminate].
  destruct (requests st !! requestId) as [R|] eqn:HR; [|discriminate].
  destruct (negb (_ =? _)%string) eqn:Hown; [discriminate|].
  destruct (negb (bool_decide _)) eqn:Hfs; [discriminate|].
  intros [= <-]. simpl. rewrite lookup_alter_eq, HR. simpl.
  rewrite Hown. unfold Request_findByIdAndUpdate. simpl.
  rewrite alter_alter_eq. reflexivity.
Qed.

Lemma finalize_idempotent_witness :
  let st1 := fst (finalize Scenario.sessA "r1" (Some "Closed"%string)
                    Scenario.st0) in
  finalize Scenario.sessA "r1" (Some "Closed"%string) st1 = (st1, Success).
Proof.
  apply (finalize_idempotent Scenario.sessA "r1" (Some "Closed"%string)
           Scenario.st0).
  vm_compute; reflexivity.
Defined.

(** X5: accept does not require the caller to be a hospital document.
    For a principal whose id is not in the hospitals collection (an
    administrator, a hospital deleted since it logged in), accept of an
    Open request of somebody else succeeds, marks the request Accepted
    with that principal as providingHospital, and debits nobody. *)
Theorem accept_by_non_hospital s requestId st P R :
  userId s = Some P ->
  requests st !! requestId = Some R ->
  status R = Open ->
  requestingHospital R <> P ->
  details_present R ->
  hospitals st !! P = None ->
  exists st',
    accept s requestId st = (st', Success)
    /\ hospitals st' = hospitals st
    /\ requests st' !! requestId = Some (set_status_provider Accepted P R).
Proof.
  intros Hs HR Hopen Hne Hpres Hno.
  destruct (cast_update_present R Hpres) as (u & Hu & _).
  rewrite (accept_applies s requestId st P R u) by done.
  eexists. split; [reflexivity|]. simpl. split.
  - apply alter_id. intros h Hh. congruence.
  - by rewrite lookup_alter_eq, HR.
Qed.

Lemma accept_by_non_hospital_witness :
  exists st',
    accept Scenario.sessAdmin "r2" Scenario.st0 = (st', Success)
    /\ hospitals st' = hospitals Scenario.st0
    /\ requests st' !! "r2"
       = Some (set_status_provider Accepted "ad0" Scenario.oxygen6).
Proof.
  apply (accept_by_non_hospital Scenario.sessAdmin "r2" Scenario.st0 "ad0"
           Scenario.oxygen6).
  - reflexivity.
  - vm_compute; reflexivity.
  - reflexivity.
  - discriminate.
  - by eexists.
  - vm_compute; reflexivity.
Defined.

(** ** What no route does to a stored request *)

Lemma alter_related (Q : Request -> Request -> Prop) f i (rs : gmap string Request) :
  (forall R, Q R R) ->
  (forall R, rs !! i = Some R -> Q R (f R)) ->
  forall j R, rs !! j = Some R ->
    exists R', alter f i rs !! j = Some R' /\ Q R R'.
Proof.
  intros Hrefl Hf j R HR. destruct (decide (i = j)) as [->|Hne].
  - rewrite lookup_alter_eq, HR. simpl. eauto.
  - rewrite lookup_alter_ne by done. eauto.
Qed.

Lemma kept_refl R : kept R R.
Proof. split; [by repeat split | apply forward_refl]. Qed.

(** X6: no route rewrites a stored request.  After any route, a request
    that was in the collection is either gone (only cancel and the
    administrator's delete remove requests) or still there with the same
    requestingHospital, requestType, details and description, and with a
    status that has not moved backward. *)
Theorem route_keeps_request_identity route st j R :
  requests st !! j = Some R ->
  (requests (fst (run_route route st)) !! j = None /\ removing route)
  \/ exists R',
       requests (fst (run_route route st)) !! j = Some R'
       /\ same_identity R R'
       /\ forward (status R) (status R').
Proof.
  intros HR.
  assert (Hstay : forall resp : Response,
            (requests (fst (st, resp)) !! j = None /\ removing route)
            \/ exists R', requests (fst (st, resp)) !! j = Some R'
                          /\ same_identity R R'
                          /\ forward (status R) (status R')).
  { intros resp. right. exists R. split; [done|]. apply kept_refl. }
  assert (Halter : forall f i hs (resp : Response),
            (forall R0, requests st !! i = Some R0 -> kept R0 (f R0)) ->
            (requests (fst (mkState hs (alter f i (requests st)), resp)) !! j
               = None /\ removing route)
            \/ exists R', requests (fst (mkState hs (alter f i (requests st)),
                                         resp)) !! j = Some R'
                          /\ same_identity R R'
                          /\ forward (status R) (status R')).
  { intros f i hs resp Hf. right. simpl.
    destruct (alter_related kept f i (requests st) kept_refl Hf j R HR)
      as (R' & HR' & Hk & Hfw). eauto. }
  destruct route as [s fresh body | s i | s i | s i | s i fs | s i];
    cbn [run_route].
  - unfold create. cbv zeta. destruct (userId s) as [uid|]; [|apply Hstay].
    destruct (new_Request _) as [r|]; [|apply Hstay].
    destruct (requests st !! default fresh (d_id body)) eqn:Hid; [apply Hstay|].
    right. exists R. cbn [fst requests]. split; [|apply kept_refl].
    rewrite lookup_insert_ne; [done|]. intros <-. congruence.
  - unfold accept. destruct (userId s) as [P|]; [|apply Hstay].
    destruct (requests st !! i) as [R0|] eqn:HR0; [|apply Hstay].
    destruct (bool_decide (status R0 = Open)) eqn:Hopen; [|apply Hstay]. simpl.
    destruct (_ =? _)%string; [apply Hstay|].
    unfold Hospital_findByIdAndUpdate.
    destruct (cast_update _); [|apply Hstay].
    apply Halter. intros R1 HR1. rewrite HR0 in HR1. injection HR1 as <-. apply bool_decide_eq_true in Hopen.
    split; [by repeat split|]. rewrite Hopen.
    split; [simpl; lia | discriminate].
  - unfold reject. destruct (userId s) as [P|]; [|apply Hstay].
    destruct (requests st !! i) as [R0|] eqn:HR0; [|apply Hstay].
    destruct (bool_decide (status R0 = Open)) eqn:Hopen; [|apply Hstay]. simpl.
    destruct (_ =? _)%string; [apply Hstay|].
    apply Halter. intros R1 HR1. rewrite HR0 in HR1. injection HR1 as <-. apply bool_decide_eq_true in Hopen.
    split; [by repeat split|]. rewrite Hopen.
    split; [simpl; lia | discriminate].
  - unfold cancel. destruct (userId s) as [P|]; [|apply Hstay].
    destruct (requests st !! i) as [R0|] eqn:HR0; [|apply Hstay].
    destruct (negb _); [apply Hstay|]. simpl.
    destruct (decide (i = j)) as [->|Hne].
    + left. by rewrite lookup_delete_eq.
    + right. exists R. rewrite lookup_delete_ne by done.
      split; [done | apply kept_refl].
  - unfold finalize. destruct (userId s) as [P|]; [|apply Hstay].
    destruct (requests st !! i) as [R0|] eqn:HR0; [|apply Hstay].
    destruct (negb (_ =? _)%string); [apply Hstay|].
    destruct (negb (bool_decide _)); [apply Hstay|].
    apply Halter. intros R1 HR1. rewrite HR0 in HR1. injection HR1 as <-.
    split; [by repeat split|].
    split; [destruct (status R0); simpl; lia | done].
  - unfold admin_delete_hospital. destruct (userId s) as [P|]; [|apply Hstay].
    destruct (negb _); [apply Hstay|].
    destruct (hospitals st !! i); [|apply Hstay]. simpl.
    destruct (decide (references i R)) as [Href|Href].
    + left. split; [|done]. apply map_lookup_filter_None. right.
      intros x Hx. simpl. rewrite HR in Hx. injection Hx as <-. tauto.
    + right. exists R. split; [|apply kept_refl].
      apply map_lookup_filter_Some. done.
Qed.

Lemma route_keeps_request_identity_witness :
  exists R',
    requests (fst (run_route (PostAccept Scenario.sessB "r1") Scenario.st0))
      !! "r1" = Some R'
    /\ same_identity Scenario.blood3 R'
    /\ forward Open (status R').
Proof.
  destruct (route_keeps_request_identity (PostAccept Scenario.sessB "r1")
              Scenario.st0 "r1" Scenario.blood3) as [[_ []] | Hkept].
  - vm_compute; reflexivity.
  - exact Hkept.
Defined.

(** X7: the provider routes keep requester and provider apart.  If no
    stored request has its own requester as provider, this still holds
    after any route, except a create whose body names the caller itself
    as providingHospital. *)
Theorem routes_keep_no_self_provider route st :
  no_self_provider st ->
  ~ names_self_as_provider route ->
  no_self_provider (fst (run_route route st)).
Proof.
  intros Hinv Hbody.
  assert (Halter : forall P i hs stt,
            (forall R0, requests st !! i = Some R0 -> requestingHospital R0 <> P) ->
            no_self_provider
              (mkState hs (alter (set_status_provider stt P) i (requests st)))).
  { intros P i hs stt HP j R'. simpl.
    destruct (decide (i = j)) as [->|Hne].
    - rewrite lookup_alter_eq. destruct (requests st !! j) as [R0|] eqn:HR0;
        [|discriminate]. intros [= <-]. simpl. intros [= Heq].
      by apply (HP R0).
    - rewrite lookup_alter_ne by done. apply Hinv. }
  destruct route as [s fresh body | s i | s i | s i | s i fs | s i];
    cbn [run_route].
  - unfold create, new_Request. cbv zeta. simpl in Hbody.
    destruct (userId s) as [uid|] eqn:Hs; [|done]. cbn [spread_with_requester d_requestingHospital d_requestType d_description d_providingHospital d_status d_details].
    destruct (d_requestType body); [|done].
    destruct (d_description body) as [descr|]; [|done].
    destruct (descr =? "")%string; [done|].
    destruct (requests st !! _) eqn:Hid in |- *; [done|].
    intros j R'. simpl. rewrite lookup_insert_Some.
    intros [[_ <-] | [_ HR']]; [|by eapply Hinv]. simpl.
    intros Heq. apply Hbody. split; [by eexists | done].
  - unfold accept. destruct (userId s) as [P|]; [|done].
    destruct (requests st !! i) as [R0|] eqn:HR0; [|done].
    destruct (bool_decide _); [|done]. simpl.
    destruct (_ =? _)%string eqn:Hown; [done|].
    unfold Hospital_findByIdAndUpdate. destruct (cast_update _); [|done].
    apply Halter. intros R1 HR1. rewrite HR0 in HR1. injection HR1 as <-. by apply String.eqb_neq.
  - unfold reject. destruct (userId s) as [P|]; [|done].
    destruct (requests st !! i) as [R0|] eqn:HR0; [|done].
    destruct (bool_decide _); [|done]. simpl.
    destruct (_ =? _)%string eqn:Hown; [done|].
    apply Halter. intros R1 HR1. rewrite HR0 in HR1. injection HR1 as <-. by apply String.eqb_neq.
  - unfold cancel. destruct (userId s) as [P|]; [|done].
    destruct (requests st !! i) as [R0|] eqn:HR0; [|done].
    destruct (negb _); [done|]. intros j R'. simpl.
    intros HR'. apply lookup_delete_Some in HR' as [_ HR']. by eapply Hinv.
  - unfold finalize. destruct (userId s) as [P|]; [|done].
    destruct (requests st !! i) as [R0|] eqn:HR0; [|done].
    destruct (negb (_ =? _)%string); [done|].
    destruct (negb (bool_decide _)); [done|].
    intros j R'. simpl. destruct (decide (i = j)) as [->|Hne].
    + rewrite lookup_alter_eq, HR0. intros [= <-]. simpl. by eapply Hinv.
    + rewrite lookup_alter_ne by done. apply Hinv.
  - unfold admin_delete_hospital. destruct (userId s) as [P|]; [|done].
    destruct (negb _); [done|]. destruct (hospitals st !! i); [|done].
    intros j R'. simpl. intros HR'.
    apply map_lookup_filter_Some in HR' as [HR' _]. by eapply Hinv.
Qed.

Lemma scenario_no_self_provider : no_self_provider Scenario.st0.
Proof.
  intros j R. unfold Scenario.st0. simpl.
  rewrite !lookup_insert_Some, lookup_empty.
  intros [[_ <-] | [_ [[_ <-] | [_ [[_ <-] | [_ [[_ <-] | [_ ?]]]]]]]];
    done.
Qed.

Lemma routes_keep_no_self_provider_witness :
  no_self_provider Scenario.st0
  /\ no_self_provider
       (fst (run_route (PostReject Scenario.sessC "r3") Scenario.st0)).
Proof.
  split; [exact scenario_no_self_provider|].
  apply (routes_keep_no_self_provider (PostReject Scenario.sessC "r3")
           Scenario.st0 scenario_no_self_provider).
  intros [].
Defined.

(** X8: create leaves the store untouched and answers 500 when the id
    the document would get is already taken (a body may bring its own
    [_id]), when the body has no requestType, or when its description is
    missing or empty: no stored request is ever overwritten. *)
Theorem create_rejects s fresh body st H :
  userId s = Some H ->
  is_Some (requests st !! default fresh (d_id body))
  \/ d_requestType body = None
  \/ d_description body = None
  \/ d_description body = Some ""%string ->
  create s fresh body st = (st, ServerError).
Proof.
  intros Hs Hbad. unfold create, new_Request. rewrite Hs. simpl.
  destruct (d_requestType body) as [ty|].
  - destruct (d_description body) as [descr|].
    + destruct (descr =? "")%string eqn:Hd; [done|].
      destruct Hbad as [[r ->] | [? | [? | [= ->]]]]; done.
    + done.
  - done.
Qed.

Lemma create_rejects_witness :
  create Scenario.sessB "r9"
         (mkDraft (Some "r1"%string) None None (Some Oxygen) None
                  (mkReqDetails None (Some 1) None) (Some "mine now"%string))
         Scenario.st0
  = (Scenario.st0, ServerError).
Proof.
  apply (create_rejects _ _ _ _ "b2"); [reflexivity|].
  left. exists Scenario.blood3. vm_compute; reflexivity.
Defined.

(** X9: every route stands behind [isAuthenticated]: with a session that
    holds no userId, each writing route answers Unauthenticated and leaves
    the store as it was, and the two reading routes answer Unauthenticated. *)
Theorem unauthenticated_everywhere route st q :
  userId (route_session route) = None ->
  run_route route st = (st, Unauthenticated)
  /\ search (route_session route) q st = inl Unauthenticated
  /\ hospital_details (route_session route) st = inl Unauthenticated.
Proof.
  intros Hs. unfold search, hospital_details. rewrite Hs.
  split; [|done].
  destruct route; simpl in *;
    unfold create, accept, reject, cancel, finalize, admin_delete_hospital;
    by rewrite Hs.
Qed.

Lemma unauthenticated_everywhere_witness :
  run_route (PostAccept (mkSession None hospital) "r1") Scenario.st0
  = (Scenario.st0, Unauthenticated).
Proof.
  apply (unauthenticated_everywhere
           (PostAccept (mkSession None hospital) "r1") Scenario.st0
           (mkQuery None None None None)).
  reflexivity.
Defined.

(** ** Search *)

Lemma parseInt_given qty n : parseInt qty = Some n -> given (Some qty) = Some qty.
Proof. destruct qty; [discriminate | done]. Qed.

Lemma offer_matches_spec o g f :
  offer_matches (Some o) (Some g) f = true <-> organName f = o /\ bloodGroup f = g.
Proof.
  unfold offer_matches. rewrite andb_true_iff, !bool_decide_eq_true.
  split; intros [H1 H2]; split; congruence.
Qed.

(** The hits of a search whose query is well formed. *)
Lemma search_hits s q st P f :
  userId s = Some P ->
  build_query q = Some f ->
  filter_casts f = true ->
  exists hits,
    search s q st = inr hits
    /\ forall i name,
         hits !! i = Some name <->
         i <> P /\ exists h, hospitals st !! i = Some h
                             /\ hospitalName h = name
                             /\ hospital_matches f h = true.
Proof.
  intros Hs Hq Hc. unfold search. rewrite Hs, Hq, Hc.
  eexists. split; [reflexivity|]. intros i name.
  rewrite lookup_fmap_Some. split.
  - intros (h & Hn & Hh). apply map_lookup_filter_Some in Hh as [Hh [Hi Hm]].
    simpl in *. eauto.
  - intros (Hi & h & Hh & Hn & Hm). exists h. split; [done|].
    apply map_lookup_filter_Some. done.
Qed.

(** X10: a search for blood returns exactly the hospitals, other than
    the caller, whose count of the requested group is at least the
    quantity [parseInt] reads from the query, each with its name. *)
Theorem search_blood s q st P g qty n :
  userId s = Some P ->
  q_requestType q = Some "Blood"%string ->
  q_bloodGroup q = Some g ->
  q_quantity q = Some qty ->
  parseInt qty = Some n ->
  exists hits,
    search s q st = inr hits
    /\ forall i name,
         hits !! i = Some name <->
         i <> P /\ exists h, hospitals st !! i = Some h
                             /\ hospitalName h = name
                             /\ n <= blood_get g (bloodAvailability (details h)).
Proof.
  intros Hs Hty Hg Hqty Hn.
  destruct (search_hits s q st P (FBlood g (Some n)) Hs) as (hits & Hsearch & Hhits).
  - unfold build_query. rewrite Hty, Hg, Hqty. cbn -[given parseInt].
    by rewrite (parseInt_given qty n), Hn.
  - done.
  - exists hits. split; [done|]. intros i name. rewrite Hhits. simpl.
    split; intros (Hi & h & Hh & Hnm & Hm); (split; [done|]); exists h;
      (split; [done|]); (split; [done|]); by apply Z.leb_le.
Qed.

Lemma search_blood_witness :
  exists hits,
    search Scenario.sessA (blood_query O_pos "3 units") Scenario.st0 = inr hits
    /\ hits !! "b2" = Some "Mercy"%string
    /\ hits !! "c3" = None
    /\ hits !! "a1" = None.
Proof.
  destruct (search_blood Scenario.sessA (blood_query O_pos "3 units")
              Scenario.st0 "a1" O_pos "3 units" 3)
    as (hits & Hs & Hhits); try reflexivity.
  exists hits. split; [exact Hs|]. split; [|split].
  - apply Hhits. split; [discriminate|]. exists Scenario.hospB.
    split; [vm_compute; reflexivity|]. split; [reflexivity|]. simpl. lia.
  - destruct (hits !! "c3") as [name|] eqn:Hc; [|reflexivity]. exfalso.
    apply Hhits in Hc as (_ & h & Hh & _ & Hle).
    vm_compute in Hh. injection Hh as <-. simpl in Hle. lia.
  - destruct (hits !! "a1") as [name|] eqn:Ha; [|reflexivity]. exfalso.
    apply Hhits in Ha as (Hne & _). by apply Hne.
Defined.

(** X11: a search for oxygen returns exactly the hospitals, other than
    the caller, whose oxygen total is at least the quantity read from the
    query. *)
Theorem search_oxygen s q st P qty n :
  userId s = Some P ->
  q_requestType q = Some "Oxygen"%string ->
  q_quantity q = Some qty ->
  parseInt qty = Some n ->
  exists hits,
    search s q st = inr hits
    /\ forall i name,
         hits !! i = Some name <->
         i <> P /\ exists h, hospitals st !! i = Some h
                             /\ hospitalName h = name
                             /\ n <= oxygenCylinders_total (details h).
Proof.
  intros Hs Hty Hqty Hn.
  destruct (search_hits s q st P (FOxygen (Some n)) Hs) as (hits & Hsearch & Hhits).
  - unfold build_query. rewrite Hty, Hqty. cbn -[given parseInt].
    by rewrite (parseInt_given qty n), Hn.
  - done.
  - exists hits. split; [done|]. intros i name. rewrite Hhits. simpl.
    split; intros (Hi & h & Hh & Hnm & Hm); (split; [done|]); exists h;
      (split; [done|]); (split; [done|]); by apply Z.leb_le.
Qed.

Lemma search_oxygen_witness :
  exists hits,
    search Scenario.sessA (oxygen_query "4") Scenario.st0 = inr hits
    /\ hits !! "b2" = Some "Mercy"%string.
Proof.
  destruct (search_oxygen Scenario.sessA (oxygen_query "4") Scenario.st0
              "a1" "4" 4) as (hits & Hs & Hhits); try reflexivity.
  exists hits. split; [exact Hs|].
  apply Hhits. split; [discriminate|]. exists Scenario.hospB.
  split; [vm_compute; reflexivity|]. split; [reflexivity|]. simpl. lia.
Defined.

(** X12: a search for an organ returns exactly the hospitals, other than
    the caller, that hold at least one offer with the requested organName
    and bloodGroup. *)
Theorem search_organ s q st P o g :
  userId s = Some P ->
  q_requestType q = Some "Organ"%string ->
  q_organName q = Some o ->
  q_bloodGroup q = Some g ->
  exists hits,
    search s q st = inr hits
    /\ forall i name,
         hits !! i = Some name <->
         i <> P /\ exists h, hospitals st !! i = Some h
                             /\ hospitalName h = name
                             /\ exists f, In f (organAvailability (details h))
                                          /\ organName f = o
                                          /\ bloodGroup f = g.
Proof.
  intros Hs Hty Ho Hg.
  destruct (search_hits s q st P (FOrgan o g) Hs) as (hits & Hsearch & Hhits).
  - unfold build_query. by rewrite Hty, Ho, Hg.
  - done.
  - exists hits. split; [done|]. intros i name. rewrite Hhits. simpl.
    split; intros (Hi & h & Hh & Hnm & Hm); (split; [done|]); exists h;
      (split; [done|]); (split; [done|]).
    + apply existsb_exists in Hm as (f & Hin & Hf).
      exists f. split; [done|]. by apply offer_matches_spec.
    + destruct Hm as (f & Hin & Hf). apply existsb_exists.
      exists f. split; [done|]. by apply offer_matches_spec.
Qed.

Lemma search_organ_witness :
  exists hits,
    search Scenario.sessA (organ_query Liver A_neg) Scenario.st0 = inr hits
    /\ hits !! "b2" = Some "Mercy"%string.
Proof.
  destruct (search_organ Scenario.sessA (organ_query Liver A_neg) Scenario.st0
              "a1" Liver A_neg) as (hits & Hs & Hhits); try reflexivity.
  exists hits. split; [exact Hs|].
  apply Hhits. split; [discriminate|]. exists Scenario.hospB.
  split; [vm_compute; reflexivity|]. split; [reflexivity|].
  exists (mkOffer Liver A_neg 52 None). simpl. tauto.
Defined.

(** X13: the search answers InvalidArgument (400) when requestType is
    missing or is none of Blood, Oxygen and Organ; for Blood when the
    blood group is missing or the quantity is missing or empty; for Oxygen
    when the quantity is missing or empty; for Organ when the organ name or
    the blood group is missing. *)
Theorem search_bad_request s q st P :
  userId s = Some P ->
  ((forall t, q_requestType q = Some t ->
      t <> "Blood"%string /\ t <> "Oxygen"%string /\ t <> "Organ"%string) ->
   search s q st = inl InvalidArgument)
  /\ (q_requestType q = Some "Blood"%string ->
      q_bloodGroup q = None \/ q_quantity q = None
      \/ q_quantity q = Some ""%string ->
      search s q st = inl InvalidArgument)
  /\ (q_requestType q = Some "Oxygen"%string ->
      q_quantity q = None \/ q_quantity q = Some ""%string ->
      search s q st = inl InvalidArgument)
  /\ (q_requestType q = Some "Organ"%string ->
      q_organName q = None \/ q_bloodGroup q = None ->
      search s q st = inl InvalidArgument).
Proof.
  intros Hs. unfold search, build_query. rewrite Hs.
  split; [|split; [|split]].
  - intros Hother. destruct (q_requestType q) as [t|]; [|done].
    destruct (Hother t eq_refl) as (Hb & Hx & Ho).
    apply String.eqb_neq in Hb, Hx, Ho. by rewrite Hb, Hx, Ho.
  - intros -> Hbad. simpl.
    destruct (q_bloodGroup q); [|done].
    destruct Hbad as [? | [-> | ->]]; done.
  - intros -> Hbad. simpl. destruct Hbad as [-> | ->]; done.
  - intros -> Hbad. simpl.
    destruct (q_organName q); [|done].
    destruct Hbad as [? | ->]; done.
Qed.

Lemma search_bad_request_witness :
  search Scenario.sessA (mkQuery (Some "Plasma"%string) (Some O_pos) None
                                 (Some "2"%string)) Scenario.st0
  = inl InvalidArgument
  /\ search Scenario.sessA (blood_query O_pos "") Scenario.st0
     = inl InvalidArgument.
Proof.
  split.
  - pose proof (search_bad_request Scenario.sessA
                  (mkQuery (Some "Plasma"%string) (Some O_pos) None
                           (Some "2"%string)) Scenario.st0 "a1" eq_refl)
      as (Hother & _).
    apply Hother. intros t [= <-]. repeat split; discriminate.
  - pose proof (search_bad_request Scenario.sessA (blood_query O_pos "")
                  Scenario.st0 "a1" eq_refl) as (_ & Hblood & _).
    apply Hblood; [reflexivity|]. right. right. reflexivity.
Defined.

(** X14: search and accept agree on sufficiency.  When a hospital found
    by a blood search for group [g] and quantity [n] accepts an Open Blood
    request of another hospital for that group and quantity, the accept
    succeeds and the provider's count of [g] stays non-negative. *)
Theorem search_then_accept_nonneg sA sP q st P g qty n name hits requestId R :
  userId sP = Some P ->
  is_Some (userId sA) ->
  q_requestType q = Some "Blood"%string ->
  q_bloodGroup q = Some g ->
  q_quantity q = Some qty ->
  parseInt qty = Some n ->
  search sA q st = inr hits ->
  hits !! P = Some name ->
  requests st !! requestId = Some R ->
  status R = Open ->
  requestingHospital R <> P ->
  requestType R = Blood ->
  req_details R = mkReqDetails (Some g) (Some n) (rd_organName (req_details R)) ->
  exists st' h',
    accept sP requestId st = (st', Success)
    /\ hospitals st' !! P = Some h'
    /\ 0 <= blood_get g (bloodAvailability (details h')).
Proof.
  intros HsP [A HsA] Hty Hg Hqty Hn Hsearch Hhit HR Hopen Hne HtyR Hdet.
  destruct (search_hits sA q st A (FBlood g (Some n)) HsA)
    as (hits' & Hsearch' & Hhits).
  { unfold build_query. rewrite Hty, Hg, Hqty. cbn -[given parseInt].
    by rewrite (parseInt_given qty n), Hn. }
  { done. }
  rewrite Hsearch in Hsearch'. injection Hsearch' as <-.
  apply Hhits in Hhit as (_ & h & Hh & _ & Hm). simpl in Hm.
  apply Z.leb_le in Hm.
  rewrite (accept_applies sP requestId st P R
             (UpdInc (PathBlood (Some g)) (Some (- n))));
    [|done..|by unfold build_update; rewrite HtyR, Hdet].
  eexists _, _. split; [reflexivity|]. simpl.
  rewrite lookup_alter_eq, Hh. simpl. split; [reflexivity|]. simpl.
  rewrite blood_get_set_eq. lia.
Qed.

Lemma search_then_accept_nonneg_witness :
  exists st' h',
    accept Scenario.sessB "r1" Scenario.st0 = (st', Success)
    /\ hospitals st' !! "b2" = Some h'
    /\ 0 <= blood_get O_pos (bloodAvailability (details h')).
Proof.
  apply (search_then_accept_nonneg Scenario.sessA Scenario.sessB
           (blood_query O_pos "3") Scenario.st0 "b2" O_pos "3" 3 "Mercy"
           (match search Scenario.sessA (blood_query O_pos "3") Scenario.st0
            with inr hits => hits | inl _ => ∅ end)
           "r1" Scenario.blood3); try reflexivity.
  - by eexists.
  - discriminate.
Defined.

(** X15: a provider that has accepted an organ request is no longer
    found by a search for that organ and blood group: the accept removed
    all its matching offers. *)
Theorem accepted_organ_leaves_search sP requestId st st' P R o g s' q hits :
  accept sP requestId st = (st', Success) ->
  userId sP = Some P ->
  requests st !! requestId = Some R ->
  requestType R = Organ ->
  rd_organName (req_details R) = Some o ->
  rd_bloodGroup (req_details R) = Some g ->
  q_requestType q = Some "Organ"%string ->
  q_organName q = Some o ->
  q_bloodGroup q = Some g ->
  search s' q st' = inr hits ->
  hits !! P = None.
Proof.
  intros Hacc HsP HR Hty Ho Hg Hqt Hqo Hqg Hsearch.
  apply accept_success_inv in Hacc
    as (P' & R' & u & HsP' & HR' & _ & _ & Hu & ->).
  rewrite HsP in HsP'. injection HsP' as <-.
  rewrite HR in HR'. injection HR' as <-.
  unfold build_update in Hu. rewrite Hty, Ho, Hg in Hu. injection Hu as <-.
  unfold search in Hsearch. destruct (userId s') as [A|]; [|discriminate].
  unfold build_query in Hsearch. rewrite Hqt, Hqo, Hqg in Hsearch.
  simpl in Hsearch. injection Hsearch as <-.
  rewrite lookup_fmap. apply fmap_None. apply map_lookup_filter_None.
  rewrite lookup_alter_eq.
  destruct (hospitals st !! P) as [h|]; [right|by left].
  intros h' [= <-] [_ Hm]. simpl in Hm.
  apply existsb_exists in Hm as (f & Hin & Hf).
  unfold pull_offers in Hin. apply filter_In in Hin as [_ Hnot].
  by rewrite Hf in Hnot.
Qed.

Lemma accepted_organ_leaves_search_witness :
  match search Scenario.sessA (organ_query Kidney O_pos)
               (fst (accept Scenario.sessB "r3" Scenario.st0)) with
  | inr hits => hits !! "b2" = None
  | inl _ => False
  end.
Proof.
  destruct (search _ _ _) as [resp|hits] eqn:Hsearch.
  - vm_compute in Hsearch. discriminate.
  - revert Hsearch.
    apply (accepted_organ_leaves_search Scenario.sessB "r3" Scenario.st0
             (fst (accept Scenario.sessB "r3" Scenario.st0)) "b2"
             Scenario.kidney Kidney O_pos); reflexivity.
Defined.

(** *** What [parseInt] makes of the quantity *)










(** ** The administrator's delete *)

(** X17: an administrator's delete of an existing hospital removes the
    hospital document and every request that has it as requester or as
    provider, and nothing else: afterwards no request refers to the
    hospital, every other request is stored unchanged, no request is
    added, and the other hospitals are as they were. *)
Theorem admin_delete_cascade s id st A h :
  userId s = Some A ->
  userType s = admin ->
  hospitals st !! id = Some h ->
  exists st',
    admin_delete_hospital s id st = (st', Success)
    /\ hospitals st' !! id = None
    /\ (forall j, j <> id -> hospitals st' !! j = hospitals st !! j)
    /\ unreferenced id st'
    /\ (forall j R, requests st !! j = Some R -> ~ references id R ->
          requests st' !! j = Some R)
    /\ (forall j R, requests st' !! j = Some R -> requests st !! j = Some R).
Proof.
  intros Hs Had Hh. unfold admin_delete_hospital. rewrite Hs, Had, Hh. simpl.
  eexists. split; [reflexivity|]. simpl.
  split; [apply lookup_delete_eq|].
  split; [intros j Hj; by apply lookup_delete_ne|].
  split; [|split].
  - intros j R HR. by apply map_lookup_filter_Some in HR as [_ Hno].
  - intros j R HR Hno. by apply map_lookup_filter_Some.
  - intros j R HR. by apply map_lookup_filter_Some in HR as [HR _].
Qed.

Lemma admin_delete_cascade_witness :
  let st1 := fst (accept Scenario.sessB "r1" Scenario.st0) in
  exists st',
    admin_delete_hospital Scenario.sessAdmin "b2" st1 = (st', Success)
    /\ hospitals st' !! "b2" = None
    /\ requests st' !! "r1" = None
    /\ requests st' !! "r2" = Some Scenario.oxygen6.
Proof.
  intros st1.
  destruct (admin_delete_cascade Scenario.sessAdmin "b2" st1 "ad0"
              (mkHospital "Mercy"
                 (mkDetails 4 (blood_set O_pos 7 Scenario.no_blood)
                    (organAvailability (details Scenario.hospB)))))
    as (st' & Hdel & Hgone & _ & Hunref & Hkeep & _).
  - reflexivity.
  - reflexivity.
  - vm_compute; reflexivity.
  - exists st'. split; [exact Hdel|]. split; [exact Hgone|]. split.
    + destruct (requests st' !! "r1") as [R|] eqn:HR; [|reflexivity].
      exfalso. injection Hdel as <-. vm_compute in HR. discriminate.
    + apply Hkeep; [vm_compute; reflexivity|].
      intros [Hreq | Hprov]; discriminate.
Defined.

(** X18: the delete is for administrators and for hospitals that exist:
    a hospital session gets Forbidden, an administrator naming an id that
    is not in the collection gets NotFound, and in both cases nothing is
    deleted. *)
Theorem admin_delete_guards s id st A :
  userId s = Some A ->
  (userType s = hospital ->
     admin_delete_hospital s id st = (st, Forbidden))
  /\ (userType s = admin -> hospitals st !! id = None ->
     admin_delete_hospital s id st = (st, NotFound)).
Proof.
  intros Hs. unfold admin_delete_hospital. rewrite Hs.
  split; [by intros -> | by intros -> ->].
Qed.

Lemma admin_delete_guards_witness :
  admin_delete_hospital Scenario.sessB "a1" Scenario.st0
  = (Scenario.st0, Forbidden)
  /\ admin_delete_hospital Scenario.sessAdmin "zz" Scenario.st0
     = (Scenario.st0, NotFound).
Proof.
  split.
  - apply (admin_delete_guards Scenario.sessB "a1" Scenario.st0 "b2");
      reflexivity.
  - apply (admin_delete_guards Scenario.sessAdmin "zz" Scenario.st0 "ad0");
      [reflexivity | reflexivity | vm_compute; reflexivity].
Defined.

(** X19: deleting a hospital does not end its session.  After the
    delete, the session of the deleted hospital gets NotFound for its own
    details, yet its create still succeeds and stores a request whose
    requestingHospital is no document of the hospitals collection. *)
Theorem deleted_hospital_session_survives sAd sH H st st' fresh body ty descr :
  admin_delete_hospital sAd H st = (st', Success) ->
  userId sH = Some H ->
  userType sH = hospital ->
  d_requestType body = Some ty ->
  d_description body = Some descr ->
  descr <> ""%string ->
  requests st' !! default fresh (d_id body) = None ->
  hospital_details sH st' = inl NotFound
  /\ hospitals st' !! H = None
  /\ exists r st'',
       create sH fresh body st' = (st'', Created r)
       /\ requestingHospital r = H
       /\ requests st'' !! default fresh (d_id body) = Some r.
Proof.
  intros Hdel HsH HtH Hty Hd Hne Hfresh.
  assert (Hgone : hospitals st' !! H = None).
  { unfold admin_delete_hospital in Hdel.
    destruct (userId sAd); [|discriminate].
    destruct (negb _); [discriminate|].
    destruct (hospitals st !! H); [|discriminate].
    injection Hdel as <-. apply lookup_delete_eq. }
  split; [|split; [done|]].
  - unfold hospital_details. by rewrite HsH, HtH, Hgone.
  - unfold create, new_Request. rewrite HsH. simpl.
    rewrite Hty, Hd. apply String.eqb_neq in Hne. rewrite Hne, Hfresh.
    eexists _, _. split; [reflexivity|]. simpl.
    split; [done | apply lookup_insert_eq].
Qed.

Lemma deleted_hospital_session_survives_witness :
  let st' := fst (admin_delete_hospital Scenario.sessAdmin "a1" Scenario.st0) in
  hospital_details Scenario.sessA st' = inl NotFound
  /\ hospitals st' !! "a1" = None
  /\ exists r st'',
       create Scenario.sessA "r9" Scenario.plain st' = (st'', Created r)
       /\ requestingHospital r = "a1"%string
       /\ requests st'' !! "r9" = Some r.
Proof.
  intros st'.
  apply (deleted_hospital_session_survives Scenario.sessAdmin Scenario.sessA
           "a1" Scenario.st0 st' "r9" Scenario.plain Blood "3 units of O+").
  - vm_compute; reflexivity.
  - reflexivity.
  - reflexivity.
  - reflexivity.
  - reflexivity.
  - discriminate.
  - vm_compute; reflexivity.
Defined.

(** ** Interleaved accepts in any store *)

Lemma accept_step_find P requestId st R :
  requests st !! requestId = Some R ->
  status R = Open ->
  requestingHospital R <> P ->
  accept_step P requestId AtFind st = (AtDebit (build_update R), st).
Proof.
  intros HR Hopen Hne. simpl. rewrite HR.
  rewrite bool_decide_true by done. simpl.
  apply String.eqb_neq in Hne. by rewrite Hne.
Qed.

Lemma accept_step_debit P requestId st upd u :
  cast_update upd = Some u ->
  accept_step P requestId (AtDebit upd) st
  = (AtCommit,
     mkState (alter (update_hospital u) P (hospitals st)) (requests st)).
Proof.
  intros Hu. simpl. unfold Hospital_findByIdAndUpdate. by rewrite Hu.
Qed.

(** X20: whenever two principals, neither of them the requester, have
    both read an Open request before either writes, both accepts reply
    Success: both principals are debited and the request ends Accepted
    with the later writer as providingHospital. *)
Theorem interleaved_accepts_both_succeed p1 p2 requestId st R u :
  requests st !! requestId = Some R ->
  status R = Open ->
  requestingHospital R <> p1 ->
  requestingHospital R <> p2 ->
  cast_update (build_update R) = Some u ->
  let r := race_run p1 p2 requestId
             [First; Second; First; First; Second; Second] st in
  pc1 r = Replied Success
  /\ pc2 r = Replied Success
  /\ hospitals (db r)
     = alter (update_hospital u) p2 (alter (update_hospital u) p1 (hospitals st))
  /\ requests (db r) !! requestId = Some (set_status_provider Accepted p2 R).
Proof.
  intros HR Hopen Hn1 Hn2 Hu.
  unfold race_run. cbn [fold_left]. unfold race_step. cbn [pc1 pc2 db].
  rewrite (accept_step_find p1 requestId st R) by done. cbn [pc1 pc2 db].
  rewrite (accept_step_find p2 requestId st R) by done. cbn [pc1 pc2 db].
  rewrite (accept_step_debit p1 requestId st _ u) by done. cbn [pc1 pc2 db].
  cbn [accept_step]. unfold Request_findByIdAndUpdate.
  cbn [pc1 pc2 db hospitals requests].
  rewrite (accept_step_debit p2 requestId _ _ u) by done.
  cbn [pc1 pc2 db hospitals requests accept_step].
  unfold Request_findByIdAndUpdate. cbn [pc1 pc2 db hospitals requests].
  repeat split.
  rewrite alter_alter_eq, lookup_alter_eq, HR. reflexivity.
Qed.

Lemma interleaved_accepts_both_succeed_witness :
  let r := race_run "b2" "c3" "r2"
             [First; Second; First; First; Second; Second] Scenario.st0 in
  pc1 r = Replied Success
  /\ pc2 r = Replied Success
  /\ hospitals (db r)
     = alter (update_hospital (UpdInc PathOxygen (Some (-6)))) "c3"
         (alter (update_hospital (UpdInc PathOxygen (Some (-6)))) "b2"
            (hospitals Scenario.st0))
  /\ requests (db r) !! "r2"
     = Some (set_status_provider Accepted "c3" Scenario.oxygen6).
Proof.
  apply (interleaved_accepts_both_succeed "b2" "c3" "r2" Scenario.st0
           Scenario.oxygen6 (UpdInc PathOxygen (Some (-6)))).
  - vm_compute; reflexivity.
  - reflexivity.
  - discriminate.
  - discriminate.
  - reflexivity.
Defined.
